(** * The example provider plugin (examples/plugins/example-python/plugin.py)

    A shallow embedding of the Flask handlers of the example plugin:
    [get_metadata], [initialize], [health_check], [chat_completions],
    [get_models] and [cleanup], with the pieces of Python they rely on
    (JSON values, truthiness, dict access, double precision
    multiplication, exceptions and [try]/[except]).

    - JSON values and Python objects are the inductive [value]; a [dict]
      is a finite map from strings ([gmap string value]).
    - A Python [float] is an IEEE 754 binary64 number, modelled with the
      executable specification of [SpecFloat] (precision 53, emax 1024).
    - A handler runs in the monad [M]: it threads the process state (the
      global [config], the requests sent so far, the log, the number of
      clock reads) and either returns a value or raises an exception.
      State changes made before an exception are kept, as in Python.
    - What the handler cannot decide itself is given by an [env]: the
      JSON body Flask parsed, the successive readings of the clock and
      the answer of the provider to an HTTP call. *)

From Stdlib Require Import ZArith QArith Qabs Lia SpecFloat.
From stdpp Require Import base option list gmap strings pretty.

Set Warnings "-register-all".

#[local] Open Scope string_scope.
#[local] Open Scope Z_scope.

(** ** Python values *)

Inductive value : Type :=
| VNone
| VBool (b : bool)
| VInt (n : Z)
| VFloat (x : spec_float)
| VStr (s : string)
| VList (xs : list value)
| VDict (d : gmap string value).

(** A dict display [{k1: v1, ...}]. *)
Definition dict (kvs : list (string * value)) : value :=
  VDict (list_to_map kvs).

(** [type(v).__name__] *)
Definition type_name (v : value) : string :=
  match v with
  | VNone => "NoneType"
  | VBool _ => "bool"
  | VInt _ => "int"
  | VFloat _ => "float"
  | VStr _ => "str"
  | VList _ => "list"
  | VDict _ => "dict"
  end.

(** ** Exceptions *)

Inductive exc_class : Type :=
| AttributeError
| KeyError
| TypeError
| ValueError
| OverflowError
| RequestsTimeout        (* requests.Timeout and its subclasses *)
| RequestsException      (* any other requests.RequestException *)
| HTTPException          (* werkzeug: the request body is not JSON *)
| OtherException.

(** An exception object: its class and [str(e)]. *)
Record exn : Type := Exc { exc_class_of : exc_class; exc_str : string }.

Inductive result (A : Type) : Type :=
| Ok (a : A)
| Raise (e : exn).
Arguments Ok {A} a.
Arguments Raise {A} e.

#[global] Instance result_ret : MRet result := fun A a => Ok a.

#[global] Instance result_bind : MBind result := fun A B f r =>
  match r with
  | Ok a => f a
  | Raise e => Raise e
  end.

Definition attribute_error (v : value) (attr : string) : exn :=
  Exc AttributeError
      ("'" ++ type_name v ++ "' object has no attribute '" ++ attr ++ "'").

(** ** Floats: IEEE 754 binary64 *)

Definition prec : Z := 53.
Definition emax : Z := 1024.

(** [float(n)] for an [int]: the nearest double, ties to even; an
    infinite result is Python's [OverflowError]. *)
Definition float_of_int (n : Z) : spec_float :=
  binary_normalize prec emax n 0 false.

Definition float_mul (x y : spec_float) : spec_float := SFmul prec emax x y.

Definition is_infinite (x : spec_float) : bool :=
  match x with S754_infinity _ => true | _ => false end.

(** The rational number a finite double stands for. *)
Definition float_to_Q (x : spec_float) : option Q :=
  match x with
  | S754_zero _ => Some 0%Q
  | S754_finite s m e =>
      let q := (inject_Z (Z.pos m) * Qpower 2 e)%Q in
      Some (if s then Qopp q else q)
  | _ => None
  end.

(** [nearest_double num den x]: [x] is a double at distance at most half
    a unit in the last place from [num / den] (both positive), that is,
    the float literal [num/den] denotes [x]. *)
Definition nearest_double (num den : Z) (x : spec_float) : bool :=
  match x with
  | S754_finite false m e =>
      valid_binary prec emax x &&
      (* e < 0 for the constants below: compare 2 * |m * den - num * 2^-e| with den *)
      (e <? 0) && (2 * Z.abs (Z.pos m * den - num * 2 ^ (- e)) <=? den)
  | _ => false
  end.

(** ** Python operations on values *)

(** [bool(v)] *)
Definition truthy (v : value) : bool :=
  match v with
  | VNone => false
  | VBool b => b
  | VInt n => negb (n =? 0)
  | VFloat (S754_zero _) => false
  | VFloat _ => true
  | VStr s => negb (String.eqb s "")
  | VList xs => match xs with [] => false | _ => true end
  | VDict d => match map_to_list d with [] => false | _ => true end
  end.

(** [a or b] *)
Definition py_or (a b : value) : value := if truthy a then a else b.

(** [needle in hay] for two strings. *)
Fixpoint is_substring (needle hay : string) : bool :=
  String.prefix needle hay ||
  match hay with
  | EmptyString => false
  | String _ rest => is_substring needle rest
  end.

Definition is_str (k : string) (v : value) : bool :=
  match v with VStr s => String.eqb s k | _ => false end.

(** [k in v] for a string [k]. *)
Definition py_contains (k : string) (v : value) : result bool :=
  match v with
  | VDict d => Ok (match d !! k with Some _ => true | None => false end)
  | VList xs => Ok (existsb (is_str k) xs)
  | VStr s => Ok (is_substring k s)
  | _ => Raise (Exc TypeError
                    ("argument of type '" ++ type_name v ++ "' is not iterable"))
  end.

(** [v[k]] for a string [k]. *)
Definition py_getitem (v : value) (k : string) : result value :=
  match v with
  | VDict d =>
      match d !! k with
      | Some x => Ok x
      | None => Raise (Exc KeyError ("'" ++ k ++ "'"))
      end
  | VList _ =>
      Raise (Exc TypeError "list indices must be integers or slices, not str")
  | VStr _ =>
      Raise (Exc TypeError "string indices must be integers, not 'str'")
  | _ => Raise (Exc TypeError
                    ("'" ++ type_name v ++ "' object is not subscriptable"))
  end.

(** [v[k] = x] for a string [k]; the updated object is returned. *)
Definition py_setitem (v : value) (k : string) (x : value) : result value :=
  match v with
  | VDict d => Ok (VDict (<[k := x]> d))
  | VList _ =>
      Raise (Exc TypeError "list indices must be integers or slices, not str")
  | _ => Raise (Exc TypeError
                    ("'" ++ type_name v ++ "' object does not support item assignment"))
  end.

(** [d.get(k, default)] on a dict. *)
Definition dict_get (d : gmap string value) (k : string) (default : value) : value :=
  match d !! k with Some x => x | None => default end.

(** [v.get(k, default)] *)
Definition py_get (v : value) (k : string) (default : value) : result value :=
  match v with
  | VDict d => Ok (dict_get d k default)
  | _ => Raise (attribute_error v "get")
  end.

(** [cost_per_token = 0.00003]: the double the literal denotes. *)
Definition cost_per_token : spec_float :=
  S754_finite false 8854437155380585 (-68).

(** [v * c] for a float [c]. An [int] (or [bool]) operand is converted with
    [float()]; a sequence cannot be multiplied by a float. *)
Definition py_mul_float (v : value) (c : spec_float) : result value :=
  let of_int n :=
    let x := float_of_int n in
    if is_infinite x
    then Raise (Exc OverflowError "int too large to convert to float")
    else Ok (VFloat (float_mul x c)) in
  match v with
  | VInt n => of_int n
  | VBool b => of_int (if b then 1 else 0)
  | VFloat x => Ok (VFloat (float_mul x c))
  | VStr _ | VList _ =>
      Raise (Exc TypeError "can't multiply sequence by non-int of type 'float'")
  | _ => Raise (Exc TypeError
                    ("unsupported operand type(s) for *: '" ++ type_name v
                     ++ "' and 'float'"))
  end.

(** ** The catalog *)

Definition capabilities (streaming function_calling vision : bool) : value :=
  dict [("streaming", VBool streaming);
        ("function_calling", VBool function_calling);
        ("vision", VBool vision)].

Definition MODELS : list value :=
  [ dict [("id", VStr "gpt-4");
          ("name", VStr "GPT-4");
          ("description", VStr "Most capable model, best for complex tasks");
          ("context_window", VInt 8192);
          ("max_output_tokens", VInt 4096);
          ("cost_per_mtoken", VFloat (S754_finite false 8646911284551352 (-58)));
          ("capabilities", capabilities true true false)];
    dict [("id", VStr "gpt-3.5-turbo");
          ("name", VStr "GPT-3.5 Turbo");
          ("description", VStr "Fast and cost-effective model");
          ("context_window", VInt 4096);
          ("max_output_tokens", VInt 4096);
          ("cost_per_mtoken", VFloat (S754_finite false 4611686018427388 (-62)));
          ("capabilities", capabilities true true false)] ].

(** The [config_schema] of the metadata document. *)
Definition config_schema : list value :=
  [ dict [("name", VStr "api_key");
          ("type", VStr "string");
          ("required", VBool true);
          ("description", VStr "OpenAI API key");
          ("sensitive", VBool true)];
    dict [("name", VStr "endpoint");
          ("type", VStr "string");
          ("required", VBool false);
          ("description", VStr "API endpoint URL");
          ("default", VStr "https://api.openai.com/v1")];
    dict [("name", VStr "timeout");
          ("type", VStr "int");
          ("required", VBool false);
          ("description", VStr "Request timeout in seconds");
          ("default", VInt 30);
          ("validation", dict [("min", VInt 1); ("max", VInt 300)])] ].

Definition METADATA : value :=
  dict [("name", VStr "Example Python Plugin");
        ("version", VStr "1.0.0");
        ("plugin_api_version", VStr "1.0.0");
        ("provider_type", VStr "example-python");
        ("description", VStr "Example plugin demonstrating Python implementation");
        ("author", VStr "Loom Team");
        ("homepage", VStr "https://github.com/jordanhubbard/Loom");
        ("license", VStr "MIT");
        ("capabilities",
         dict [("streaming", VBool false);
               ("function_calling", VBool true);
               ("vision", VBool false);
               ("embeddings", VBool false);
               ("fine_tuning", VBool false)]);
        ("config_schema", VList config_schema)].

(** ** HTTP, the process state and the environment of a call *)

(** What the handler reads of a [requests.Response]. *)
Record http_response : Type := Response {
  status_code : Z;                 (* resp.status_code *)
  content_type : option string;    (* resp.headers.get('content-type') *)
  text : string;                   (* resp.text *)
  json : result value              (* resp.json() *)
}.

Inductive http_outcome : Type :=
| Responds (r : http_response)
| Fails (e : exn).

(** A call of [requests.get] or [requests.post]. *)
Record http_call : Type := Call {
  call_method : string;
  call_url : string;
  call_headers : list (string * string);
  call_json : option value;
  call_timeout : value
}.

Inductive log_level : Type := INFO | WARNING | ERROR.

Record state : Type := State {
  config : gmap string value;            (* the global [config] *)
  clock_reads : nat;                     (* calls of datetime.now() so far *)
  sent : list http_call;                 (* calls made to the provider, oldest first *)
  log : list (log_level * string)        (* records given to [logger] *)
}.

Record env : Type := Env {
  request_json : result value;           (* request.json *)
  now : nat -> Z;                        (* n-th reading of the clock, in microseconds *)
  upstream : http_call -> http_outcome   (* what the provider answers *)
}.

(** The configuration at process start. *)
Definition initial_config : gmap string value :=
  list_to_map [("api_key", VStr ""); ("endpoint", VStr "https://api.openai.com/v1");
               ("timeout", VInt 30)].

Definition initial_state : state := State initial_config 0 [] [].

(** A Flask response: the JSON body and the HTTP status. *)
Record response : Type := Reply { body : value; status : Z }.

(** [jsonify(v)] with the default status. *)
Definition jsonify (v : value) : response := Reply v 200.

(** ** The monad of handlers *)

Definition M (A : Type) : Type := state -> result A * state.

#[global] Instance M_ret : MRet M := fun A a s => (Ok a, s).

#[global] Instance M_bind : MBind M := fun A B f m s =>
  match m s with
  | (Ok a, s') => f a s'
  | (Raise e, s') => (Raise e, s')
  end.

Definition raise {A} (e : exn) : M A := fun s => (Raise e, s).

Definition lift {A} (r : result A) : M A := fun s => (r, s).

(** [try: body  except Exception as e: handler e] *)
Definition try_except {A} (body : M A) (handler : exn -> M A) : M A := fun s =>
  match body s with
  | (Ok a, s') => (Ok a, s')
  | (Raise e, s') => handler e s'
  end.

(** [config[k]] *)
Definition config_getitem (k : string) : M value := fun s =>
  (py_getitem (VDict (config s)) k, s).

(** [config.get(k, default)] *)
Definition config_get (k : string) (default : value) : M value := fun s =>
  (Ok (dict_get (config s) k default), s).

(** [config.update(fields)]: the keys of [fields] override. *)
Definition config_update (fields : gmap string value) : M unit := fun s =>
  (Ok tt, State (fields ∪ config s) (clock_reads s) (sent s) (log s)).

(** [datetime.now()] *)
Definition datetime_now (e : env) : M Z := fun s =>
  (Ok (now e (clock_reads s)),
   State (config s) (S (clock_reads s)) (sent s) (log s)).

Definition logger (lvl : log_level) (msg : string) : M unit := fun s =>
  (Ok tt, State (config s) (clock_reads s) (sent s) (log s ++ [(lvl, msg)])).

(** [requests.get] / [requests.post]: the call is recorded, then the
    provider answers or the call raises. *)
Definition requests_call (e : env) (c : http_call) : M http_response := fun s =>
  let s' := State (config s) (clock_reads s) (sent s ++ [c]) (log s) in
  match upstream e c with
  | Responds r => (Ok r, s')
  | Fails ex => (Raise ex, s')
  end.

Definition requests_get (e : env) (url : string)
    (headers : list (string * string)) (timeout : value) : M http_response :=
  requests_call e (Call "GET" url headers None timeout).

Definition requests_post (e : env) (url : string) (payload : value)
    (headers : list (string * string)) (timeout : value) : M http_response :=
  requests_call e (Call "POST" url headers (Some payload) timeout).

(** [isinstance(e, requests.Timeout)] *)
Definition is_timeout (ex : exn) : bool :=
  match exc_class_of ex with RequestsTimeout => true | _ => false end.

(** ** chat_completions: the pure steps *)

(** Lines 291-300: map the HTTP status to the plugin error code. *)
Definition classify_status (sc : Z) : string :=
  if sc =? 401 then "authentication_failed"
  else if sc =? 429 then "rate_limit_exceeded"
  else if sc =? 404 then "model_not_found"
  else if sc >=? 500 then "provider_unavailable"
  else "internal_error".

(** Line 307: [code in ["rate_limit_exceeded", "provider_unavailable", "timeout"]] *)
Definition is_transient (code : string) : bool :=
  existsb (String.eqb code)
          ["rate_limit_exceeded"; "provider_unavailable"; "timeout"].

(** Lines 277-281: add [usage.cost_usd] to the parsed body. The right-hand
    side is evaluated first, then [result['usage']] is fetched again and
    updated in place; [result] sees the update because it holds the same
    object. *)
Definition add_cost (parsed : value) : result value :=
  has_usage ← py_contains "usage" parsed;
  has_tokens ← (if has_usage : bool
                then usage ← py_getitem parsed "usage";
                     py_contains "total_tokens" usage
                else Ok false);
  if has_tokens : bool then
    usage ← py_getitem parsed "usage";
    tokens ← py_getitem usage "total_tokens";
    cost ← py_mul_float tokens cost_per_token;
    usage ← py_getitem parsed "usage";
    usage' ← py_setitem usage "cost_usd" cost;
    py_setitem parsed "usage" usage'
  else Ok parsed.

(** ** The handlers *)

Section Handlers.

(** Left to the interpreter and the standard library:
    - [py_repr]: how [str()] prints a float, a list or a dict;
    - [isoformat]: [datetime.isoformat()] of a clock reading;
    - [elapsed_ms a b]: [int((b - a).total_seconds() * 1000)]. *)
Variable py_repr : value -> string.
Variable isoformat : Z -> string.
Variable elapsed_ms : Z -> Z -> Z.

(** [str(v)], as an f-string inserts it. *)
Definition py_str (v : value) : string :=
  match v with
  | VStr s => s
  | VInt n => pretty n
  | VBool true => "True"
  | VBool false => "False"
  | VNone => "None"
  | _ => py_repr v
  end.

(** [list(d.keys())] *)
Definition dict_keys (d : gmap string value) : list value :=
  VStr <$> (map_to_list d).*1.

(** The [Authorization] header both probes and the forwarder send. *)
Definition bearer (api_key : value) : string * string :=
  ("Authorization", "Bearer " ++ py_str api_key).

(** POST /initialize *)
Definition initialize (e : env) : M response :=
  try_except
    (parsed ← lift (request_json e);
     let new_config := py_or parsed (dict []) in
     match new_config with
     | VDict fields =>
         logger INFO ("Initializing with config: "
                      ++ py_repr (VList (dict_keys fields)));;
         (* Validate required fields *)
         present ← lift (py_contains "api_key" new_config);
         if negb present then
           mret (Reply (dict [("code", VStr "invalid_request");
                              ("message", VStr "api_key is required");
                              ("transient", VBool false)]) 400)
         else
           (* Update configuration *)
           config_update fields;;
           (* Test connection *)
           try_except
             (endpoint ← config_getitem "endpoint";
              api_key ← config_getitem "api_key";
              resp ← requests_get e (py_str endpoint ++ "/models")
                                  [bearer api_key] (VInt 5);
              if negb (status_code resp =? 200)
              then logger WARNING ("Provider returned status "
                                   ++ pretty (status_code resp))
              else mret tt)
             (fun ex => logger WARNING ("Could not verify connection: "
                                        ++ exc_str ex));;
           logger INFO "Initialization successful";;
           mret (jsonify (dict []))
     | other =>
         (* new_config.keys() on something that is not a dict *)
         raise (attribute_error other "keys")
     end)
    (fun ex =>
       logger ERROR ("Initialization failed: " ++ exc_str ex);;
       mret (Reply (dict [("code", VStr "internal_error");
                          ("message", VStr (exc_str ex));
                          ("transient", VBool false)]) 500)).

(** [health_check]: the report sent when the probe did not succeed. *)
Definition unhealthy (message : string) (latency_ms : Z) (timestamp : Z) : value :=
  dict [("healthy", VBool false);
        ("message", VStr message);
        ("latency_ms", VInt latency_ms);
        ("timestamp", VStr (isoformat timestamp))].

(** GET /health *)
Definition health_check (e : env) : M response :=
  start_time ← datetime_now e;
  try_except
    ((* Check if initialized *)
     api_key ← config_get "api_key" VNone;
     if negb (truthy api_key) then
       ts ← datetime_now e;
       mret (jsonify (unhealthy "Not initialized" 0 ts))
     else
       (* Ping provider *)
       endpoint ← config_getitem "endpoint";
       api_key ← config_getitem "api_key";
       resp ← requests_get e (py_str endpoint ++ "/models")
                           [bearer api_key] (VInt 5);
       t ← datetime_now e;
       let latency_ms := elapsed_ms start_time t in
       if status_code resp =? 200 then
         ts ← datetime_now e;
         mret (jsonify (dict [("healthy", VBool true);
                              ("message", VStr "OK");
                              ("latency_ms", VInt latency_ms);
                              ("timestamp", VStr (isoformat ts));
                              ("details",
                               dict [("provider_status", VStr "connected");
                                     ("models_available",
                                      VInt (Z.of_nat (length MODELS)))])]))
       else
         ts ← datetime_now e;
         mret (jsonify (unhealthy ("Provider returned status "
                                   ++ pretty (status_code resp)) latency_ms ts)))
    (fun ex =>
       if is_timeout ex then
         t ← datetime_now e;
         let latency_ms := elapsed_ms start_time t in
         ts ← datetime_now e;
         mret (jsonify (unhealthy "Health check timeout" latency_ms ts))
       else
         t ← datetime_now e;
         let latency_ms := elapsed_ms start_time t in
         logger ERROR ("Health check failed: " ++ exc_str ex);;
         ts ← datetime_now e;
         mret (jsonify (unhealthy (exc_str ex) latency_ms ts))).

(** POST /chat/completions *)
Definition chat_completions (e : env) : M response :=
  try_except
    (req_data ← lift (request_json e);
     model ← lift (py_get req_data "model" VNone);
     logger INFO ("Completion request for model: " ++ py_str model);;
     (* Validate request *)
     model ← lift (py_get req_data "model" VNone);
     if negb (truthy model) then
       mret (Reply (dict [("code", VStr "invalid_request");
                          ("message", VStr "model is required");
                          ("transient", VBool false)]) 400)
     else
     messages ← lift (py_get req_data "messages" VNone);
     if negb (truthy messages) then
       mret (Reply (dict [("code", VStr "invalid_request");
                          ("message", VStr "messages is required");
                          ("transient", VBool false)]) 400)
     else
     (* Forward request to provider *)
     api_key ← config_getitem "api_key";
     let headers := [bearer api_key; ("Content-Type", "application/json")] in
     start_time ← datetime_now e;
     endpoint ← config_getitem "endpoint";
     timeout ← config_get "timeout" (VInt 30);
     resp ← requests_post e (py_str endpoint ++ "/chat/completions")
                          req_data headers timeout;
     t ← datetime_now e;
     let latency_ms := elapsed_ms start_time t in
     if status_code resp =? 200 then
       parsed ← lift (json resp);
       (* Add cost calculation *)
       augmented ← lift (add_cost parsed);
       logger INFO ("Completion successful, latency: " ++ pretty latency_ms ++ "ms");;
       mret (jsonify augmented)
     else
     (* Handle error responses *)
     error_body ← (if bool_decide (content_type resp = Some "application/json")
                   then lift (json resp) else mret (dict []));
     error ← lift (py_get error_body "error" (dict []));
     error_msg ← lift (py_get error "message" (VStr (text resp)));
     (* Map HTTP status to plugin error code *)
     let code := classify_status (status_code resp) in
     logger ERROR ("Completion failed: " ++ code ++ " - " ++ py_str error_msg);;
     mret (Reply (dict [("code", VStr code);
                        ("message", error_msg);
                        ("transient", VBool (is_transient code));
                        ("details", dict [("status_code", VInt (status_code resp));
                                          ("latency_ms", VInt latency_ms)])])
                 (status_code resp)))
    (fun ex =>
       if is_timeout ex then
         logger ERROR "Completion request timeout";;
         mret (Reply (dict [("code", VStr "timeout");
                            ("message", VStr "Request timeout");
                            ("transient", VBool true)]) 504)
       else
         logger ERROR ("Completion request failed: " ++ exc_str ex);;
         mret (Reply (dict [("code", VStr "internal_error");
                            ("message", VStr (exc_str ex));
                            ("transient", VBool false)]) 500)).

(** GET /metadata *)
Definition get_metadata : M response :=
  logger INFO "Metadata requested";;
  mret (jsonify METADATA).

(** GET /models *)
Definition get_models : M response :=
  logger INFO "Models requested";;
  mret (jsonify (VList MODELS)).

(** POST /cleanup *)
Definition cleanup : M response :=
  logger INFO "Cleanup requested";;
  mret (jsonify (dict [])).

(** [ConfigStore.is_initialized()]: the test [config.get('api_key')] of
    [health_check] (line 180). *)
Definition is_initialized (s : state) : bool :=
  truthy (dict_get (config s) "api_key" VNone).

(** *** The calls the handlers make, written out *)

(** The probe of [initialize] and [health_check]. *)
Definition probe_call (endpoint api_key : value) : http_call :=
  Call "GET" (py_str endpoint ++ "/models") [bearer api_key] None (VInt 5).

(** The call [chat_completions] makes for the request body [req]. *)
Definition completion_call (cfg : gmap string value) (endpoint api_key req : value)
    : http_call :=
  Call "POST" (py_str endpoint ++ "/chat/completions")
       [bearer api_key; ("Content-Type", "application/json")]
       (Some req) (dict_get cfg "timeout" (VInt 30)).

(** The latency [chat_completions] measures around its call: between the
    next two readings of the clock. *)
Definition measured_latency (e : env) (s : state) : Z :=
  elapsed_ms (now e (clock_reads s)) (now e (S (clock_reads s))).

(** *** The states the process can be in *)

(** One request to the plugin, with any environment. *)
Inductive step : state -> state -> Prop :=
| step_initialize (e : env) (s : state) : step s (snd (initialize e s))
| step_health_check (e : env) (s : state) : step s (snd (health_check e s))
| step_chat_completions (e : env) (s : state) : step s (snd (chat_completions e s))
| step_get_metadata (s : state) : step s (snd (get_metadata s))
| step_get_models (s : state) : step s (snd (get_models s))
| step_cleanup (s : state) : step s (snd (cleanup s)).

Inductive reachable : state -> Prop :=
| reachable_start : reachable initial_state
| reachable_step (s s' : state) : reachable s -> step s s' -> reachable s'.

End Handlers.

Arguments dict : simpl never.

(** ** Vocabulary of the properties *)

(** The member [k] of a JSON object, if [v] is one and has it. *)
Definition field (v : value) (k : string) : option value :=
  match v with VDict d => d !! k | _ => None end.

(** The request has no usable [k]: the key is absent, or its value is
    empty (the empty string, the empty list, or anything else Python
    counts as false). This is the test [not req_data.get(k)]. *)
Definition absent_or_empty (d : gmap string value) (k : string) : Prop :=
  truthy (dict_get d k VNone) = false.

(** Both keys the handlers read with [config[...]] are there. They are in
    [initial_config] and no handler removes a key. *)
Definition has_keys (cfg : gmap string value) (endpoint api_key : value) : Prop :=
  cfg !! "endpoint" = Some endpoint /\ cfg !! "api_key" = Some api_key.

(** The kinds of the closed table of the classifier. *)
Definition table_kinds : list string :=
  ["authentication_failed"; "rate_limit_exceeded"; "model_not_found";
   "provider_unavailable"; "internal_error"].

(** The kinds for which a retry may help. *)
Definition transient_kinds : list string :=
  ["rate_limit_exceeded"; "provider_unavailable"; "timeout"].

(** The body of a [PluginError] without details. *)
Definition plugin_error (code message : string) (transient : bool) : value :=
  dict [("code", VStr code); ("message", VStr message);
        ("transient", VBool transient)].

(** [error.message] of a parsed error body, if both levels are objects. *)
Definition nested_error_message (parsed : value) : option value :=
  match field parsed "error" with
  | Some err => field err "message"
  | None => None
  end.

(** The request passes the validation of [chat_completions]. *)
Definition valid_request (d : gmap string value) : Prop :=
  truthy (dict_get d "model" VNone) = true /\
  truthy (dict_get d "messages" VNone) = true.

(** The error body of an upstream answer can be read: the content type is
    not exactly [application/json] (the body is then not parsed), or the
    body parses to a JSON object whose [error] member is absent or again
    an object. *)
Definition readable_error_body (resp : http_response) : Prop :=
  content_type resp <> Some "application/json" \/
  exists b : gmap string value,
    json resp = Ok (VDict b) /\
    (b !! "error" = None \/ exists err, b !! "error" = Some (VDict err)).

(** The message the adapter reports for an upstream error: the nested
    [error.message] when the content type is exactly [application/json]
    and the field is there, the raw text otherwise. *)
Definition reported_message (resp : http_response) : value :=
  if bool_decide (content_type resp = Some "application/json") then
    match json resp with
    | Ok parsed =>
        match nested_error_message parsed with
        | Some m => m
        | None => VStr (text resp)
        end
    | Raise _ => VStr (text resp)
    end
  else VStr (text resp).

(** The body of the [PluginError] built from an upstream answer. *)
Definition upstream_error (resp : http_response) (message : value) (latency_ms : Z)
    : value :=
  dict [("code", VStr (classify_status (status_code resp)));
        ("message", message);
        ("transient", VBool (is_transient (classify_status (status_code resp))));
        ("details", dict [("status_code", VInt (status_code resp));
                          ("latency_ms", VInt latency_ms)])].

(** A number as the double Python multiplies with: an [int] or [bool] in
    the range of a double, or a float. *)
Definition as_double (v : value) : option spec_float :=
  match v with
  | VInt n => if is_infinite (float_of_int n) then None else Some (float_of_int n)
  | VBool b => Some (float_of_int (if b then 1 else 0))
  | VFloat x => Some x
  | _ => None
  end.

(** ** Sample runtime, used to run the handlers on concrete inputs *)

(** A stand-in for [str()] of floats and containers. *)
Definition sample_repr (v : value) : string := "<" ++ type_name v ++ ">".

(** A stand-in for [isoformat]: the reading in microseconds. *)
Definition sample_isoformat (t : Z) : string := pretty t.

(** Whole milliseconds between two readings in microseconds. *)
Definition sample_elapsed_ms (a b : Z) : Z := Z.quot (b - a) 1000.

(** A clock that advances 1.5 ms per reading. *)
Definition sample_now (n : nat) : Z := 1500 * Z.of_nat n.

(** A provider that gives the same answer to every call. *)
Definition answering (resp : http_response) : http_call -> http_outcome :=
  fun _ => Responds resp.

(** A provider no call reaches. *)
Definition failing (ex : exn) : http_call -> http_outcome :=
  fun _ => Fails ex.

Definition connection_refused : exn := Exc RequestsException "Connection refused".

Definition read_timeout : exn := Exc RequestsTimeout "Read timed out.".

(** The double quote, for JSON texts. *)
Definition dq : string := String (Ascii.ascii_of_nat 34) EmptyString.

Definition quoted (s : string) : string := dq ++ s ++ dq.

(** [{"model": "gpt-4", "messages": [{"role": "user", "content": "hi"}]}] *)
Definition sample_fields : gmap string value :=
  list_to_map [("model", VStr "gpt-4");
               ("messages", VList [dict [("role", VStr "user");
                                         ("content", VStr "hi")]])].

(** [{"error": {"message": "slow down"}}], parsed and as text. *)
Definition slow_down : value :=
  dict [("error", dict [("message", VStr "slow down")])].

Definition slow_down_text : string :=
  "{" ++ quoted "error" ++ ": {" ++ quoted "message" ++ ": "
      ++ quoted "slow down" ++ "}}".

(** A 429 with that body, served as plain [application/json]. *)
Definition rate_limited : http_response :=
  Response 429 (Some "application/json") slow_down_text (Ok slow_down).

(** The same answer with a charset parameter in the content type. *)
Definition rate_limited_charset : http_response :=
  Response 429 (Some "application/json; charset=utf-8") slow_down_text (Ok slow_down).

(** A 401 as the provider sends it for a missing key. *)
Definition unauthorized : http_response :=
  Response 401 (Some "application/json")
           ("{" ++ quoted "error" ++ ": {" ++ quoted "message" ++ ": "
                ++ quoted "Missing API key" ++ "}}")
           (Ok (dict [("error", dict [("message", VStr "Missing API key")])])).

(** A completion that reports 1000 tokens. *)
Definition completion_1000 : gmap string value :=
  list_to_map [("id", VStr "chatcmpl-1");
               ("usage", dict [("total_tokens", VInt 1000)])].

Definition success_1000 : http_response :=
  Response 200 (Some "application/json")
           ("{" ++ quoted "id" ++ ": " ++ quoted "chatcmpl-1" ++ ", "
                ++ quoted "usage" ++ ": {" ++ quoted "total_tokens" ++ ": 1000}}")
           (Ok (VDict completion_1000)).

(** A completion whose [usage] is [null]. *)
Definition completion_null_usage : gmap string value :=
  list_to_map [("id", VStr "chatcmpl-2"); ("usage", VNone)].

Definition success_null_usage : http_response :=
  Response 200 (Some "application/json")
           ("{" ++ quoted "id" ++ ": " ++ quoted "chatcmpl-2" ++ ", "
                ++ quoted "usage" ++ ": null}")
           (Ok (VDict completion_null_usage)).

(** The handlers with the sample runtime. *)
Definition sample_chat : env -> M response :=
  chat_completions sample_repr sample_elapsed_ms.

Definition sample_health : env -> M response :=
  health_check sample_repr sample_isoformat sample_elapsed_ms.

Definition sample_initialize : env -> M response := initialize sample_repr.

(** A valid completion request against a provider that answers [resp]. *)
Definition completion_env (resp : http_response) : env :=
  Env (Ok (VDict sample_fields)) sample_now (answering resp).

(** A first configuration: a key and a timeout of ten minutes. *)
Definition first_fields : gmap string value :=
  list_to_map [("api_key", VStr "sk-1"); ("timeout", VInt 600)].

(** A second one: another key and another endpoint. *)
Definition second_fields : gmap string value :=
  list_to_map [("api_key", VStr "sk-2"); ("endpoint", VStr "http://localhost:8000/v1")].

(** An [initialize] request with the given body; the provider is down. *)
Definition initialize_env (parsed : value) : env :=
  Env (Ok parsed) sample_now (failing connection_refused).

(** The state after [initialize(first_fields)] at process start. *)
Definition initialized_state : state :=
  snd (sample_initialize (initialize_env (VDict first_fields)) initial_state).

(** A 503 of a proxy: declared as JSON, but the body is a web page. *)
Definition bad_gateway_page : http_response :=
  Response 503 (Some "application/json") "<html>Service Unavailable</html>"
           (Raise (Exc ValueError "Expecting value: line 1 column 1 (char 0)")).

(** ** Properties of the pure steps *)

(** *** Facts on values *)

Lemma truthy_nonempty_dict (d : gmap string value) (k : string) (v : value) :
  d !! k = Some v -> truthy (VDict d) = true.
Proof.
  intros Hk. cbn. destruct (map_to_list d) as [|kv l] eqn:Hl; [|reflexivity].
  apply map_to_list_empty_iff in Hl. subst d. rewrite lookup_empty in Hk. discriminate.
Qed.

Lemma absent_is_absent_or_empty (d : gmap string value) (k : string) :
  d !! k = None -> absent_or_empty d k.
Proof. unfold absent_or_empty, dict_get. intros ->. reflexivity. Qed.

Lemma empty_string_is_absent_or_empty (d : gmap string value) (k : string) :
  d !! k = Some (VStr "") -> absent_or_empty d k.
Proof. unfold absent_or_empty, dict_get. intros ->. reflexivity. Qed.

Lemma empty_list_is_absent_or_empty (d : gmap string value) (k : string) :
  d !! k = Some (VList []) -> absent_or_empty d k.
Proof. unfold absent_or_empty, dict_get. intros ->. reflexivity. Qed.

Lemma py_get_empty (k : string) (default : value) :
  py_get (dict []) k default = Ok default.
Proof.
  change (dict []) with (VDict ∅). unfold py_get, dict_get.
  rewrite lookup_empty. reflexivity.
Qed.

(** *** The classifier *)

(** C1. The classifier is total and deterministic: every status other than
    200 gets exactly one kind of the closed table, 401, 429 and 404 by exact
    match, every status from 500 on [provider_unavailable], and any other
    status [internal_error]. *)
Theorem classify_status_total (sc : Z) :
  sc <> 200 ->
  (exists! kind, kind ∈ table_kinds /\ classify_status sc = kind) /\
  (sc = 401 -> classify_status sc = "authentication_failed") /\
  (sc = 429 -> classify_status sc = "rate_limit_exceeded") /\
  (sc = 404 -> classify_status sc = "model_not_found") /\
  (500 <= sc -> classify_status sc = "provider_unavailable") /\
  (sc <> 401 -> sc <> 429 -> sc <> 404 -> sc < 500 ->
   classify_status sc = "internal_error").
Proof.
  intros _. split; [|repeat split].
  - exists (classify_status sc). split; [split; [|reflexivity]|by intros k [_ <-]].
    unfold classify_status, table_kinds.
    repeat case_match; set_solver.
  - intros ->. reflexivity.
  - intros ->. reflexivity.
  - intros ->. reflexivity.
  - intros H. unfold classify_status.
    repeat case_match; try reflexivity; lia.
  - intros H1 H2 H3 H4. unfold classify_status.
    repeat case_match; try reflexivity; lia.
Qed.

(** *** Cost *)

Lemma add_cost_no_usage (b : gmap string value) :
  b !! "usage" = None -> add_cost (VDict b) = Ok (VDict b).
Proof. intros Hu. unfold add_cost. cbn. rewrite Hu. reflexivity. Qed.

Lemma add_cost_no_tokens (b u : gmap string value) :
  b !! "usage" = Some (VDict u) -> u !! "total_tokens" = None ->
  add_cost (VDict b) = Ok (VDict b).
Proof. intros Hu Ht. unfold add_cost. cbn. rewrite Hu. cbn. rewrite Ht. reflexivity. Qed.

Lemma add_cost_tokens (b u : gmap string value) (tokens : value) (x : spec_float) :
  b !! "usage" = Some (VDict u) -> u !! "total_tokens" = Some tokens ->
  as_double tokens = Some x ->
  add_cost (VDict b) =
    Ok (VDict (<["usage" := VDict (<["cost_usd" := VFloat (float_mul x cost_per_token)]> u)]> b)).
Proof.
  intros Hu Ht Hx. unfold add_cost. cbn. rewrite Hu. cbn. rewrite Ht. cbn.
  destruct tokens as [|b0|n|y|?|?|?]; try discriminate; cbn in Hx |- *.
  - injection Hx as <-. destruct b0; reflexivity.
  - destruct (is_infinite (float_of_int n)); [discriminate|].
    injection Hx as <-. reflexivity.
  - injection Hx as <-. reflexivity.
Qed.

Lemma cost_per_token_literal : nearest_double 3 100000 cost_per_token = true.
Proof. vm_compute. reflexivity. Qed.

(** The float literals of the catalog. *)
Lemma catalog_cost_literals :
  nearest_double 3 100 (S754_finite false 8646911284551352 (-58)) = true /\
  nearest_double 1 1000 (S754_finite false 4611686018427388 (-62)) = true.
Proof. split; vm_compute; reflexivity. Qed.

Lemma cost_of_1000_tokens :
  float_mul (float_of_int 1000) cost_per_token = S754_finite false 8646911284551353 (-58).
Proof. vm_compute. reflexivity. Qed.

(** *** The transient flag *)

Lemma is_transient_spec (code : string) :
  is_transient code = true <-> code ∈ transient_kinds.
Proof.
  unfold is_transient, transient_kinds. cbn [existsb].
  rewrite !orb_true_iff, !String.eqb_eq, !elem_of_cons, elem_of_nil.
  intuition discriminate.
Qed.


(** ** Properties of the handlers *)

Section Properties.

Variable py_repr : value -> string.
Variable isoformat : Z -> string.
Variable elapsed_ms : Z -> Z -> Z.

(** Unfold the monad and the primitive effects of a handler. *)
Ltac run :=
  cbv [mbind M_bind mret M_ret try_except lift raise config_getitem config_get
       config_update datetime_now logger requests_get requests_post requests_call
       py_getitem];
  cbn [fst snd config clock_reads sent log negb].

Ltac proj := cbn [fst snd config clock_reads sent log negb status body].

(** *** The health check *)

(** C6. While the adapter is not initialized, the health check answers
    [healthy: false], "Not initialized", [latency_ms: 0] and sends nothing
    to the provider. *)
Theorem health_check_not_initialized (e : env) (s : state) :
  is_initialized s = false ->
  let out := health_check py_repr isoformat elapsed_ms e s in
  fst out = Ok (Reply (dict [("healthy", VBool false);
                             ("message", VStr "Not initialized");
                             ("latency_ms", VInt 0);
                             ("timestamp",
                              VStr (isoformat (now e (S (clock_reads s)))))]) 200) /\
  sent (snd out) = sent s /\
  config (snd out) = config s.
Proof.
  unfold is_initialized, health_check. intros Hk. run.
  rewrite Hk. proj. repeat split.
Qed.

(** C7. The health check never raises and never answers with an error:
    whatever the provider does, the reply has status 200 and is a report
    with [healthy], [message] and [latency_ms], not a [PluginError].
    [healthy] is true exactly when the adapter is initialized and the
    provider answered the probe with 200, and [message] tells the outcome
    of the probe: a 200, another status, a timeout or any other failure. *)
Theorem health_check_never_fails (e : env) (s : state) :
  exists (r : response) (s' : state),
    health_check py_repr isoformat elapsed_ms e s = (Ok r, s') /\
    status r = 200 /\
    field (body r) "code" = None /\
    exists (healthy : bool) (message : string) (latency_ms : Z),
      field (body r) "healthy" = Some (VBool healthy) /\
      field (body r) "message" = Some (VStr message) /\
      field (body r) "latency_ms" = Some (VInt latency_ms) /\
      (healthy = true <->
       is_initialized s = true /\
       exists (endpoint api_key : value) (resp : http_response),
         has_keys (config s) endpoint api_key /\
         upstream e (probe_call py_repr endpoint api_key) = Responds resp /\
         status_code resp = 200) /\
      (is_initialized s = true ->
       forall endpoint api_key : value,
         has_keys (config s) endpoint api_key ->
         message =
           match upstream e (probe_call py_repr endpoint api_key) with
           | Responds resp =>
               if status_code resp =? 200 then "OK"
               else "Provider returned status " ++ pretty (status_code resp)
           | Fails ex =>
               if is_timeout ex then "Health check timeout" else exc_str ex
           end).
Proof.
  unfold health_check, is_initialized, has_keys, probe_call. run.
  destruct (truthy _) eqn:Hinit; proj.
  2:{ do 2 eexists. repeat (split; [reflexivity|]). do 3 eexists.
      repeat (split; [reflexivity|]). split; [split; [discriminate|]|].
      - intros [? _]. discriminate.
      - discriminate. }
  destruct (config s !! "endpoint") as [ep|] eqn:Hep.
  2:{ proj. do 2 eexists. repeat (split; [reflexivity|]). do 3 eexists.
      repeat (split; [reflexivity|]). split; [split; [discriminate|]|].
      - intros [_ (? & ? & ? & [? _] & _)]. discriminate.
      - intros _ ? ? [? _]. discriminate. }
  destruct (config s !! "api_key") as [k|] eqn:Hkey.
  2:{ proj. do 2 eexists. repeat (split; [reflexivity|]). do 3 eexists.
      repeat (split; [reflexivity|]). split; [split; [discriminate|]|].
      - intros [_ (? & ? & ? & [_ ?] & _)]. discriminate.
      - intros _ ? ? [_ ?]. discriminate. }
  destruct (upstream e _) as [resp|ex] eqn:Hup.
  - destruct (status_code resp =? 200) eqn:Hsc; proj.
    + do 2 eexists. repeat (split; [reflexivity|]). do 3 eexists.
      repeat (split; [reflexivity|]). split; [split; [|reflexivity]|].
      * intros _. split; [reflexivity|]. exists ep, k, resp.
        repeat split; [exact Hup | lia].
      * intros _ ep' k' [[= <-] [= <-]]. rewrite Hup, Hsc. reflexivity.
    + do 2 eexists. repeat (split; [reflexivity|]). do 3 eexists.
      repeat (split; [reflexivity|]). split; [split; [discriminate|]|].
      * intros [_ (ep' & k' & resp' & [Hep' Hk'] & Hup' & Hsc')].
        simplify_eq. rewrite Hup in Hup'. simplify_eq. lia.
      * intros _ ep' k' [[= <-] [= <-]]. rewrite Hup, Hsc. reflexivity.
  - destruct (is_timeout ex) eqn:Hex; proj.
    all: do 2 eexists; repeat (split; [reflexivity|]); do 3 eexists;
      repeat (split; [reflexivity|]); (split; [split; [discriminate|]|]);
      [ intros [_ (ep' & k' & resp' & [Hep' Hk'] & Hup' & Hsc')];
        simplify_eq; rewrite Hup in Hup'; discriminate
      | intros _ ep' k' [[= <-] [= <-]]; rewrite Hup, Hex; reflexivity ].
Qed.

(** *** Initialization *)

(** What [initialize] does with a JSON object that has [api_key]: the
    probe is sent, its outcome is only logged. *)
Lemma initialize_accepts (e : env) (s : state) (fields : gmap string value) :
  request_json e = Ok (VDict fields) ->
  is_Some (fields !! "api_key") ->
  fst (initialize py_repr e s) = Ok (Reply (dict []) 200) /\
  config (snd (initialize py_repr e s)) = fields ∪ config s.
Proof.
  intros Hreq [key Hkey]. unfold initialize. run. rewrite Hreq.
  unfold py_or. rewrite (truthy_nonempty_dict _ _ _ Hkey).
  cbn [py_contains]. rewrite Hkey. proj.
  destruct ((fields ∪ config s) !! "endpoint") as [ep|]; [|split; reflexivity].
  destruct ((fields ∪ config s) !! "api_key") as [k|]; [|split; reflexivity].
  destruct (upstream e _) as [resp|ex]; [|split; reflexivity].
  destruct (status_code resp =? 200); split; reflexivity.
Qed.

(** C9. A successful [initialize(fields)] leaves the merge of [fields] over
    the prior configuration: supplied keys take the supplied value, all
    other keys keep theirs; whatever the provider answers to the probe,
    the reply and the stored configuration are the same. *)
Theorem initialize_merges (e : env) (s : state) (fields : gmap string value) :
  request_json e = Ok (VDict fields) ->
  is_Some (fields !! "api_key") ->
  let out := initialize py_repr e s in
  fst out = Ok (Reply (dict []) 200) /\
  config (snd out) = fields ∪ config s /\
  (forall (k : string) (v : value),
     fields !! k = Some v -> config (snd out) !! k = Some v) /\
  (forall k : string,
     fields !! k = None -> config (snd out) !! k = config s !! k) /\
  (forall provider : http_call -> http_outcome,
     let out' := initialize py_repr (Env (request_json e) (now e) provider) s in
     fst out' = fst out /\ config (snd out') = config (snd out)).
Proof.
  intros Hreq Hkey out.
  destruct (initialize_accepts e s fields Hreq Hkey) as [Hr Hc].
  fold out in Hr, Hc. rewrite Hr, Hc. repeat split.
  - intros k v Hk. apply lookup_union_Some_l. exact Hk.
  - intros k Hk. apply lookup_union_r. exact Hk.
  - apply (initialize_accepts (Env (request_json e) (now e) provider) s fields Hreq Hkey).
  - apply (initialize_accepts (Env (request_json e) (now e) provider) s fields Hreq Hkey).
Qed.

(** C10. [initialize] tests the presence of [api_key], not its value:
    with [{api_key: ""}] it succeeds with [{}] and status 200 and stores the
    empty string, and the adapter is still not initialized afterwards. *)
Theorem initialize_empty_api_key (s : state) (clock : nat -> Z)
    (provider : http_call -> http_outcome) :
  let e := Env (Ok (dict [("api_key", VStr "")])) clock provider in
  let out := initialize py_repr e s in
  fst out = Ok (Reply (dict []) 200) /\
  config (snd out) !! "api_key" = Some (VStr "") /\
  is_initialized (snd out) = false.
Proof.
  intros e out.
  destruct (initialize_accepts e s {["api_key" := VStr ""]}) as [Hr Hc].
  { reflexivity. }
  { eexists. apply lookup_singleton_eq. }
  fold out in Hr, Hc. split; [exact Hr|].
  assert (Hk : config (snd out) !! "api_key" = Some (VStr "")).
  { rewrite Hc. apply lookup_union_Some_l, lookup_singleton_eq. }
  split; [exact Hk|]. unfold is_initialized, dict_get. rewrite Hk. reflexivity.
Qed.

(** [initialize] refuses a body without [api_key] and leaves the
    configuration alone. *)
Lemma initialize_rejects (e : env) (s : state) (fields : gmap string value) :
  request_json e = Ok (VDict fields) ->
  fields !! "api_key" = None ->
  fst (initialize py_repr e s) = Ok (Reply (plugin_error "invalid_request" "api_key is required" false) 400) /\
  config (snd (initialize py_repr e s)) = config s /\
  sent (snd (initialize py_repr e s)) = sent s.
Proof.
  intros Hreq Hkey. unfold initialize. run. rewrite Hreq.
  unfold py_or. destruct (truthy (VDict fields)).
  - cbn [py_contains]. rewrite Hkey. proj. repeat split.
  - change (dict []) with (VDict ∅). cbn [py_contains].
    rewrite lookup_empty. proj. repeat split.
Qed.

(** No handler removes a key of the configuration. *)
Lemma initialize_keeps_keys (e : env) (s : state) (k : string) :
  is_Some (config s !! k) -> is_Some (config (snd (initialize py_repr e s)) !! k).
Proof.
  intros Hk. unfold initialize. run.
  destruct (request_json e) as [parsed|ex]; [|exact Hk].
  destruct (py_or parsed (dict [])) as [| | | | | |fields] eqn:Hnew; try exact Hk.
  cbn [py_contains]. destruct (fields !! "api_key"); proj; [|exact Hk].
  assert (Hk' : is_Some ((fields ∪ config s) !! k)).
  { destruct Hk as [old Hold]. destruct (fields !! k) as [new|] eqn:Hnew'.
    - exists new. apply lookup_union_Some_l. exact Hnew'.
    - exists old. rewrite lookup_union_r; assumption. }
  destruct ((fields ∪ config s) !! "endpoint") as [ep|]; [|exact Hk'].
  destruct ((fields ∪ config s) !! "api_key") as [key|]; [|exact Hk'].
  destruct (upstream e _) as [resp|ex]; [|exact Hk'].
  destruct (status_code resp =? 200); exact Hk'.
Qed.

(** *** Completions: validation *)

(** Start of a run of [chat_completions] on a JSON object. *)
Ltac chat_start Hreq :=
  unfold chat_completions; run; rewrite Hreq; cbn [py_get].

Lemma chat_rejects_model (e : env) (s : state) (d : gmap string value) :
  request_json e = Ok (VDict d) ->
  absent_or_empty d "model" ->
  let out := chat_completions py_repr elapsed_ms e s in
  fst out = Ok (Reply (plugin_error "invalid_request" "model is required" false) 400) /\
  sent (snd out) = sent s /\ config (snd out) = config s.
Proof.
  unfold absent_or_empty. intros Hreq Hmodel. chat_start Hreq.
  rewrite Hmodel. proj. repeat split.
Qed.

Lemma chat_rejects_messages (e : env) (s : state) (d : gmap string value) :
  request_json e = Ok (VDict d) ->
  ~ absent_or_empty d "model" ->
  absent_or_empty d "messages" ->
  let out := chat_completions py_repr elapsed_ms e s in
  fst out = Ok (Reply (plugin_error "invalid_request" "messages is required" false) 400) /\
  sent (snd out) = sent s /\ config (snd out) = config s.
Proof.
  unfold absent_or_empty. intros Hreq Hmodel Hmsgs. chat_start Hreq.
  apply not_false_is_true in Hmodel. rewrite Hmodel. proj.
  rewrite Hmsgs. proj. repeat split.
Qed.

(** A valid request is forwarded: exactly one call is sent, the one of
    [completion_call], whatever the state of initialization. *)
Lemma chat_forwards (e : env) (s : state) (d : gmap string value)
    (endpoint api_key : value) :
  request_json e = Ok (VDict d) ->
  valid_request d ->
  has_keys (config s) endpoint api_key ->
  let out := chat_completions py_repr elapsed_ms e s in
  sent (snd out) =
    (sent s ++ [completion_call py_repr (config s) endpoint api_key (VDict d)])%list /\
  config (snd out) = config s.
Proof.
  intros Hreq [Hmodel Hmsgs] [Hep Hkey]. chat_start Hreq.
  rewrite Hmodel. proj. rewrite Hmsgs. proj. rewrite Hkey, Hep.
  unfold completion_call.
  destruct (upstream e _) as [resp|ex].
  - destruct (status_code resp =? 200).
    + destruct (json resp) as [parsed|ex]; [|destruct (is_timeout ex); split; reflexivity].
      destruct (add_cost parsed) as [augmented|ex];
        [|destruct (is_timeout ex)]; split; reflexivity.
    + destruct (bool_decide _).
      * destruct (json resp) as [parsed|ex]; [|destruct (is_timeout ex); split; reflexivity].
        destruct (py_get parsed _ _) as [err|ex]; [|destruct (is_timeout ex); split; reflexivity].
        destruct (py_get err _ _) as [msg|ex]; [|destruct (is_timeout ex)]; split; reflexivity.
      * rewrite !py_get_empty. split; reflexivity.
  - destruct (is_timeout ex); split; reflexivity.
Qed.

(** *** Completions: the upstream answer *)

(** Run [chat_completions] on a valid request up to the upstream call. *)
Ltac chat_call Hreq Hvalid Hkeys Hup :=
  let Hmodel := fresh in let Hmsgs := fresh in
  let Hep := fresh in let Hkey := fresh in
  destruct Hvalid as [Hmodel Hmsgs]; destruct Hkeys as [Hep Hkey];
  unfold completion_call in Hup;
  chat_start Hreq; rewrite Hmodel; proj; rewrite Hmsgs; proj;
  rewrite Hkey, Hep, Hup.

Lemma chat_upstream_error (e : env) (s : state) (d : gmap string value)
    (endpoint api_key : value) (resp : http_response) :
  request_json e = Ok (VDict d) ->
  valid_request d ->
  has_keys (config s) endpoint api_key ->
  upstream e (completion_call py_repr (config s) endpoint api_key (VDict d))
    = Responds resp ->
  status_code resp <> 200 ->
  readable_error_body resp ->
  fst (chat_completions py_repr elapsed_ms e s) =
    Ok (Reply (upstream_error resp (reported_message resp) (measured_latency elapsed_ms e s))
              (status_code resp)).
Proof.
  intros Hreq Hvalid Hkeys Hup Hsc Hbody. chat_call Hreq Hvalid Hkeys Hup.
  apply Z.eqb_neq in Hsc. rewrite Hsc. unfold reported_message.
  destruct (bool_decide _) eqn:Hct.
  - destruct Hbody as [Hbody | (b & Hjson & Herr)].
    { apply bool_decide_eq_true in Hct. contradiction. }
    rewrite Hjson. cbn [py_get]. unfold nested_error_message, dict_get. cbn [field].
    destruct Herr as [Herr | [err Herr]]; rewrite Herr.
    + rewrite py_get_empty. reflexivity.
    + cbn [py_get field]. unfold dict_get. destruct (err !! "message"); reflexivity.
  - rewrite !py_get_empty. reflexivity.
Qed.

Lemma chat_upstream_success (e : env) (s : state) (d : gmap string value)
    (endpoint api_key : value) (resp : http_response) (parsed augmented : value) :
  request_json e = Ok (VDict d) ->
  valid_request d ->
  has_keys (config s) endpoint api_key ->
  upstream e (completion_call py_repr (config s) endpoint api_key (VDict d))
    = Responds resp ->
  status_code resp = 200 ->
  json resp = Ok parsed ->
  add_cost parsed = Ok augmented ->
  fst (chat_completions py_repr elapsed_ms e s) = Ok (Reply augmented 200).
Proof.
  intros Hreq Hvalid Hkeys Hup Hsc Hjson Hcost. chat_call Hreq Hvalid Hkeys Hup.
  apply Z.eqb_eq in Hsc. rewrite Hsc, Hjson, Hcost. reflexivity.
Qed.

(** A body [add_cost] cannot process ends in the outer handler. *)
Lemma chat_upstream_success_unusable (e : env) (s : state) (d : gmap string value)
    (endpoint api_key : value) (resp : http_response) (parsed : value) (ex : exn) :
  request_json e = Ok (VDict d) ->
  valid_request d ->
  has_keys (config s) endpoint api_key ->
  upstream e (completion_call py_repr (config s) endpoint api_key (VDict d))
    = Responds resp ->
  status_code resp = 200 ->
  json resp = Ok parsed ->
  add_cost parsed = Raise ex ->
  is_timeout ex = false ->
  fst (chat_completions py_repr elapsed_ms e s) =
    Ok (Reply (plugin_error "internal_error" (exc_str ex) false) 500).
Proof.
  intros Hreq Hvalid Hkeys Hup Hsc Hjson Hcost Hex. chat_call Hreq Hvalid Hkeys Hup.
  apply Z.eqb_eq in Hsc. rewrite Hsc, Hjson, Hcost. proj. rewrite Hex. reflexivity.
Qed.

Lemma chat_upstream_timeout (e : env) (s : state) (d : gmap string value)
    (endpoint api_key : value) (ex : exn) :
  request_json e = Ok (VDict d) ->
  valid_request d ->
  has_keys (config s) endpoint api_key ->
  upstream e (completion_call py_repr (config s) endpoint api_key (VDict d))
    = Fails ex ->
  is_timeout ex = true ->
  fst (chat_completions py_repr elapsed_ms e s) =
    Ok (Reply (plugin_error "timeout" "Request timeout" true) 504).
Proof.
  intros Hreq Hvalid Hkeys Hup Hex. chat_call Hreq Hvalid Hkeys Hup.
  proj. rewrite Hex. reflexivity.
Qed.

(** *** Completions: cost *)

(** C4, as amended. On an upstream 200 whose body is a JSON object in which
    [usage], when present, is an object: if [usage.total_tokens] is a number
    (an int within the range of a double, or a float) the reply is the body
    with [usage.cost_usd] set to the double [total_tokens * 0.00003]; if
    [usage] or [usage.total_tokens] is absent the body is returned as it is.
    For 1000 tokens the cost is within 1e-17 of 0.03. *)
Theorem cost_augmentation (e : env) (s : state) (d : gmap string value)
    (endpoint api_key : value) (resp : http_response) (b : gmap string value) :
  request_json e = Ok (VDict d) ->
  valid_request d ->
  has_keys (config s) endpoint api_key ->
  upstream e (completion_call py_repr (config s) endpoint api_key (VDict d))
    = Responds resp ->
  status_code resp = 200 ->
  json resp = Ok (VDict b) ->
  let reply := fst (chat_completions py_repr elapsed_ms e s) in
  (forall (u : gmap string value) (tokens : value) (x : spec_float),
     b !! "usage" = Some (VDict u) ->
     u !! "total_tokens" = Some tokens ->
     as_double tokens = Some x ->
     reply = Ok (Reply (VDict (<["usage" :=
                VDict (<["cost_usd" := VFloat (float_mul x cost_per_token)]> u)]> b))
                       200)) /\
  (b !! "usage" = None -> reply = Ok (Reply (VDict b) 200)) /\
  (forall u : gmap string value,
     b !! "usage" = Some (VDict u) ->
     u !! "total_tokens" = None ->
     reply = Ok (Reply (VDict b) 200)) /\
  nearest_double 3 100000 cost_per_token = true /\
  as_double (VInt 1000) = Some (float_of_int 1000) /\
  exists q : Q,
    float_to_Q (float_mul (float_of_int 1000) cost_per_token) = Some q /\
    (Qabs (q - (3 # 100)) < 1 # 100000000000000000)%Q.
Proof.
  intros Hreq Hvalid Hkeys Hup Hsc Hjson reply.
  split; [|split; [|split; [|split; [|split]]]].
  - intros u tokens x Hu Ht Hx.
    apply (chat_upstream_success e s d endpoint api_key resp (VDict b)); try assumption.
    apply (add_cost_tokens b u tokens x); assumption.
  - intros Hu.
    apply (chat_upstream_success e s d endpoint api_key resp (VDict b)); try assumption.
    apply add_cost_no_usage; assumption.
  - intros u Hu Ht.
    apply (chat_upstream_success e s d endpoint api_key resp (VDict b)); try assumption.
    apply (add_cost_no_tokens b u); assumption.
  - apply cost_per_token_literal.
  - reflexivity.
  - rewrite cost_of_1000_tokens. eexists. split; [reflexivity|]. vm_compute. reflexivity.
Qed.

(** *** Completions: upstream errors *)

(** C3, as amended. For a valid request whose upstream call answers with a
    status other than 200 and a readable error body, the reply is a
    [PluginError] with the kind of the classifier, the details
    [status_code] and [latency_ms], and the upstream status as its own; the
    message is the nested [error.message] when the content type is exactly
    [application/json] and the field is present, the raw text otherwise. *)
Theorem upstream_error_reply (e : env) (s : state) (d : gmap string value)
    (endpoint api_key : value) (resp : http_response) :
  request_json e = Ok (VDict d) ->
  valid_request d ->
  has_keys (config s) endpoint api_key ->
  upstream e (completion_call py_repr (config s) endpoint api_key (VDict d))
    = Responds resp ->
  status_code resp <> 200 ->
  readable_error_body resp ->
  fst (chat_completions py_repr elapsed_ms e s) =
    Ok (Reply
          (dict [("code", VStr (classify_status (status_code resp)));
                 ("message", reported_message resp);
                 ("transient",
                  VBool (is_transient (classify_status (status_code resp))));
                 ("details",
                  dict [("status_code", VInt (status_code resp));
                        ("latency_ms", VInt (measured_latency elapsed_ms e s))])])
          (status_code resp)).
Proof. apply chat_upstream_error. Qed.

(** *** Completions: validation order *)

(** C5. Validation answers [invalid_request] "model is required" when
    [model] is absent or empty, "messages is required" when [model] is fine
    and [messages] is absent or empty, in both cases without a call to the
    provider; a request with both is forwarded as it is, whatever else it
    contains. *)
Theorem validation_model_first (e : env) (s : state) (d : gmap string value) :
  request_json e = Ok (VDict d) ->
  let out := chat_completions py_repr elapsed_ms e s in
  (absent_or_empty d "model" ->
   fst out = Ok (Reply (dict [("code", VStr "invalid_request");
                              ("message", VStr "model is required");
                              ("transient", VBool false)]) 400) /\
   sent (snd out) = sent s) /\
  (~ absent_or_empty d "model" -> absent_or_empty d "messages" ->
   fst out = Ok (Reply (dict [("code", VStr "invalid_request");
                              ("message", VStr "messages is required");
                              ("transient", VBool false)]) 400) /\
   sent (snd out) = sent s) /\
  (~ absent_or_empty d "model" -> ~ absent_or_empty d "messages" ->
   forall endpoint api_key : value,
     has_keys (config s) endpoint api_key ->
     sent (snd out) =
       (sent s ++ [completion_call py_repr (config s) endpoint api_key (VDict d)])%list) /\
  (forall k : string,
     d !! k = None \/ d !! k = Some (VStr "") \/ d !! k = Some (VList []) ->
     absent_or_empty d k).
Proof.
  intros Hreq out. split; [|split; [|split]].
  - intros Hmodel. split; apply (chat_rejects_model e s d Hreq Hmodel).
  - intros Hmodel Hmsgs. split; apply (chat_rejects_messages e s d Hreq Hmodel Hmsgs).
  - intros Hmodel Hmsgs endpoint api_key Hkeys.
    apply (chat_forwards e s d endpoint api_key Hreq); [|exact Hkeys].
    split; apply not_false_is_true; assumption.
  - intros k [Hk | [Hk | Hk]].
    + apply absent_is_absent_or_empty, Hk.
    + apply empty_string_is_absent_or_empty, Hk.
    + apply empty_list_is_absent_or_empty, Hk.
Qed.

(** *** Completions before initialization *)

(** C8. [chat_completions] does not look at the initialization state: with
    the empty [api_key] of an uninitialized adapter a valid request is still
    sent, with the bearer credential empty, and a 401 of the provider comes
    back as [authentication_failed]. *)
Theorem completion_without_initialization (e : env) (s : state)
    (d : gmap string value) (endpoint : value) :
  request_json e = Ok (VDict d) ->
  valid_request d ->
  has_keys (config s) endpoint (VStr "") ->
  let out := chat_completions py_repr elapsed_ms e s in
  let call := Call "POST" (py_str py_repr endpoint ++ "/chat/completions")
                   [("Authorization", "Bearer "); ("Content-Type", "application/json")]
                   (Some (VDict d)) (dict_get (config s) "timeout" (VInt 30)) in
  is_initialized s = false /\
  sent (snd out) = (sent s ++ [call])%list /\
  (forall resp : http_response,
     upstream e call = Responds resp ->
     status_code resp = 401 ->
     readable_error_body resp ->
     fst out = Ok (Reply (dict [("code", VStr "authentication_failed");
                                ("message", reported_message resp);
                                ("transient", VBool false);
                                ("details",
                                 dict [("status_code", VInt 401);
                                       ("latency_ms",
                                        VInt (measured_latency elapsed_ms e s))])])
                         401)).
Proof.
  intros Hreq Hvalid Hkeys out call. split; [|split].
  - unfold is_initialized, dict_get. destruct Hkeys as [_ ->]. reflexivity.
  - apply (chat_forwards e s d endpoint (VStr "") Hreq Hvalid Hkeys).
  - intros resp Hup Hsc Hbody.
    assert (Hne : status_code resp <> 200) by lia.
    pose proof (chat_upstream_error e s d endpoint (VStr "") resp
                  Hreq Hvalid Hkeys Hup Hne Hbody) as Hr.
    unfold upstream_error in Hr. rewrite Hsc in Hr. exact Hr.
Qed.

(** *** The transient flag *)

(** Destruct whatever the run of a handler still branches on. *)
Ltac branch :=
  repeat (proj; match goal with
    | |- context [match ?x with _ => _ end] =>
        lazymatch x with
        | context [match _ with _ => _ end] => fail
        | _ => destruct x eqn:?
        end
    end).

Ltac error_reply :=
  let Hstatus := fresh "Hstatus" in
  intros ? ? [= <- <-] Hstatus; proj;
  first
    [ exfalso; apply Hstatus; reflexivity
    | exfalso; apply Hstatus; cbn [status]; lia
    | eexists _, _; split; [reflexivity|]; split; [reflexivity|];
      match goal with |- _ <-> ?c ∈ _ => exact (is_transient_spec c) end ].

Lemma initialize_error_reply (e : env) (s : state) (r : response) (s' : state) :
  initialize py_repr e s = (Ok r, s') ->
  status r <> 200 ->
  exists (code : string) (transient : bool),
    field (body r) "code" = Some (VStr code) /\
    field (body r) "transient" = Some (VBool transient) /\
    (transient = true <-> code ∈ transient_kinds).
Proof.
  revert r s'. unfold initialize. run. branch; try discriminate; error_reply.
Qed.

Lemma chat_error_reply (e : env) (s : state) (r : response) (s' : state) :
  chat_completions py_repr elapsed_ms e s = (Ok r, s') ->
  status r <> 200 ->
  exists (code : string) (transient : bool),
    field (body r) "code" = Some (VStr code) /\
    field (body r) "transient" = Some (VBool transient) /\
    (transient = true <-> code ∈ transient_kinds).
Proof.
  revert r s'. unfold chat_completions. run. branch; try discriminate; error_reply.
Qed.

(** C2. Every [PluginError] the adapter produces carries [transient: true]
    exactly when its kind is [rate_limit_exceeded], [provider_unavailable]
    or [timeout]; the kinds [authentication_failed], [model_not_found] and
    [internal_error] of the classifier are not transient, and the error of
    the timeout path is [timeout] with [transient: true]. *)
Theorem transient_iff_kind :
  (forall (e : env) (s : state) (r : response) (s' : state),
     initialize py_repr e s = (Ok r, s') \/
     chat_completions py_repr elapsed_ms e s = (Ok r, s') ->
     status r <> 200 ->
     exists (code : string) (transient : bool),
       field (body r) "code" = Some (VStr code) /\
       field (body r) "transient" = Some (VBool transient) /\
       (transient = true <-> code ∈ transient_kinds)) /\
  (forall sc : Z,
     sc <> 200 ->
     classify_status sc ∈ ["authentication_failed"; "model_not_found"; "internal_error"] ->
     is_transient (classify_status sc) = false) /\
  (forall (e : env) (s : state) (d : gmap string value)
          (endpoint api_key : value) (ex : exn),
     request_json e = Ok (VDict d) ->
     valid_request d ->
     has_keys (config s) endpoint api_key ->
     upstream e (completion_call py_repr (config s) endpoint api_key (VDict d))
       = Fails ex ->
     is_timeout ex = true ->
     fst (chat_completions py_repr elapsed_ms e s) =
       Ok (Reply (dict [("code", VStr "timeout");
                        ("message", VStr "Request timeout");
                        ("transient", VBool true)]) 504)).
Proof.
  split; [|split].
  - intros e s r s' [Hrun | Hrun] Hstatus.
    + exact (initialize_error_reply e s r s' Hrun Hstatus).
    + exact (chat_error_reply e s r s' Hrun Hstatus).
  - intros sc _ Hkind. rewrite !elem_of_cons, elem_of_nil in Hkind.
    destruct Hkind as [-> | [-> | [-> | []]]]; reflexivity.
  - apply chat_upstream_timeout.
Qed.

(** *** The configuration over time *)

Lemma health_check_config (e : env) (s : state) :
  config (snd (health_check py_repr isoformat elapsed_ms e s)) = config s.
Proof. unfold health_check. run. branch; reflexivity. Qed.

Lemma chat_completions_config (e : env) (s : state) :
  config (snd (chat_completions py_repr elapsed_ms e s)) = config s.
Proof. unfold chat_completions. run. branch; reflexivity. Qed.

(** In every state the process reaches, [config] has [endpoint] and
    [api_key]: [config[...]] never raises [KeyError]. *)
Lemma reachable_has_keys (s : state) :
  reachable py_repr isoformat elapsed_ms s ->
  exists endpoint api_key : value, has_keys (config s) endpoint api_key.
Proof.
  intros Hs.
  assert (Hkeys : is_Some (config s !! "endpoint") /\ is_Some (config s !! "api_key")).
  { induction Hs as [|s s' _ [Hep Hkey] Hstep].
    - split; eexists; reflexivity.
    - destruct Hstep as [e s|e s|e s|s|s|s].
      + split; apply initialize_keeps_keys; assumption.
      + rewrite health_check_config. split; assumption.
      + rewrite chat_completions_config. split; assumption.
      + split; assumption.
      + split; assumption.
      + split; assumption. }
  destruct Hkeys as [[ep Hep] [k Hk]]. exists ep, k. split; assumption.
Qed.

(** [initialize] succeeds only on a JSON object that has [api_key]. *)
Lemma initialize_success_inv (e : env) (s : state) (r : response) (s' : state) :
  initialize py_repr e s = (Ok r, s') ->
  status r = 200 ->
  exists fields : gmap string value,
    request_json e = Ok (VDict fields) /\ is_Some (fields !! "api_key").
Proof.
  revert r s'. unfold initialize. run.
  destruct (request_json e) as [parsed|ex]; [|intros ? ? [= <- <-]; discriminate].
  unfold py_or. destruct (truthy parsed) eqn:Htruthy.
  - destruct parsed as [| | | | | |fields]; try (intros ? ? [= <- <-]; discriminate).
    cbn [py_contains]. destruct (fields !! "api_key") as [key|] eqn:Hkey; proj.
    + intros _ _ _ _. exists fields. split; [reflexivity|]. exists key. exact Hkey.
    + intros ? ? [= <- <-]. discriminate.
  - change (dict []) with (VDict ∅). cbn [py_contains]. rewrite lookup_empty. proj.
    intros ? ? [= <- <-]. discriminate.
Qed.

End Properties.

(** ** The properties on concrete inputs *)

Lemma sample_fields_valid : valid_request sample_fields.
Proof. split; reflexivity. Defined.

Lemma initial_config_keys :
  has_keys (config initial_state) (VStr "https://api.openai.com/v1") (VStr "").
Proof. split; reflexivity. Defined.

(** C1 at 503 and at 418. *)
Lemma classify_status_total_witness :
  classify_status 503 = "provider_unavailable" /\ classify_status 418 = "internal_error".
Proof.
  split.
  - destruct (classify_status_total 503) as (_ & _ & _ & _ & H & _); [lia|].
    apply H. lia.
  - destruct (classify_status_total 418) as (_ & _ & _ & _ & _ & H); [lia|].
    apply H; lia.
Defined.

(** C2 on the 429 of the spec (P5) and on a read timeout. *)
Lemma transient_iff_kind_witness :
  (exists (code : string) (transient : bool),
     field (body (Reply (upstream_error rate_limited (VStr "slow down") 1) 429)) "code"
       = Some (VStr code) /\
     field (body (Reply (upstream_error rate_limited (VStr "slow down") 1) 429)) "transient"
       = Some (VBool transient) /\
     (transient = true <-> code ∈ transient_kinds)) /\
  fst (sample_chat (Env (Ok (VDict sample_fields)) sample_now (failing read_timeout))
                   initial_state)
    = Ok (Reply (dict [("code", VStr "timeout"); ("message", VStr "Request timeout");
                       ("transient", VBool true)]) 504).
Proof.
  destruct (transient_iff_kind sample_repr sample_elapsed_ms) as (Hall & _ & Htimeout).
  split.
  - apply (Hall (completion_env rate_limited) initial_state _
                (snd (sample_chat (completion_env rate_limited) initial_state))).
    + right. vm_compute. reflexivity.
    + cbn. lia.
  - apply (Htimeout _ initial_state sample_fields
                    (VStr "https://api.openai.com/v1") (VStr "") read_timeout).
    + reflexivity.
    + exact sample_fields_valid.
    + exact initial_config_keys.
    + reflexivity.
    + reflexivity.
Defined.

(** C3, as stated, fails: the body carries [error.message] but the content
    type has a charset parameter, and the adapter reports the raw text. *)
Lemma nested_message_ignored_counterexample :
  status_code rate_limited_charset <> 200 /\
  json rate_limited_charset = Ok slow_down /\
  nested_error_message slow_down = Some (VStr "slow down") /\
  exists reply : response,
    fst (sample_chat (completion_env rate_limited_charset) initial_state) = Ok reply /\
    status reply = 429 /\
    field (body reply) "code" = Some (VStr "rate_limit_exceeded") /\
    field (body reply) "message" = Some (VStr slow_down_text) /\
    field (body reply) "message" <> Some (VStr "slow down").
Proof.
  split; [cbn; lia|]. split; [reflexivity|]. split; [reflexivity|].
  eexists. split; [vm_compute; reflexivity|]. split; [reflexivity|].
  split; [reflexivity|]. split; [reflexivity|]. vm_compute. discriminate.
Defined.

(** An [error] member that is a string ends in the outer handler: the
    reply is [internal_error] with status 500, whatever the upstream status. *)
Lemma string_error_member_internal_error :
  fst (sample_chat
         (completion_env (Response 429 (Some "application/json")
                                   ("{" ++ quoted "error" ++ ": " ++ quoted "slow down" ++ "}")
                                   (Ok (dict [("error", VStr "slow down")]))))
         initial_state)
    = Ok (Reply (plugin_error "internal_error" "'str' object has no attribute 'get'" false)
                500).
Proof. vm_compute. reflexivity. Qed.

(** C3 as amended, on the example of the spec (P5). *)
Lemma upstream_error_reply_witness :
  fst (sample_chat (completion_env rate_limited) initial_state) =
    Ok (Reply
          (dict [("code", VStr "rate_limit_exceeded");
                 ("message", VStr "slow down");
                 ("transient", VBool true);
                 ("details", dict [("status_code", VInt 429); ("latency_ms", VInt 1)])])
          429).
Proof.
  apply (upstream_error_reply sample_repr sample_elapsed_ms
           (completion_env rate_limited) initial_state sample_fields
           (VStr "https://api.openai.com/v1") (VStr "") rate_limited).
  - reflexivity.
  - exact sample_fields_valid.
  - exact initial_config_keys.
  - reflexivity.
  - cbn. lia.
  - right. exists (list_to_map [("error", dict [("message", VStr "slow down")])]).
    split; [reflexivity|]. right. eexists. reflexivity.
Defined.

(** C4, as stated, fails: [usage] is [null], so [usage.total_tokens] is
    absent, yet the body does not pass through: the reply is
    [internal_error] with status 500. *)
Lemma null_usage_counterexample :
  status_code success_null_usage = 200 /\
  json success_null_usage = Ok (VDict completion_null_usage) /\
  completion_null_usage !! "usage" = Some VNone /\
  field VNone "total_tokens" = None /\
  fst (sample_chat (completion_env success_null_usage) initial_state)
    = Ok (Reply (plugin_error "internal_error"
                              "argument of type 'NoneType' is not iterable" false) 500) /\
  fst (sample_chat (completion_env success_null_usage) initial_state)
    <> Ok (Reply (VDict completion_null_usage) 200).
Proof.
  split; [reflexivity|]. split; [reflexivity|]. split; [reflexivity|].
  split; [reflexivity|]. split; [vm_compute; reflexivity|].
  vm_compute. discriminate.
Defined.

(** An integer beyond the range of a double is refused as well. *)
Lemma huge_total_tokens_internal_error :
  add_cost (dict [("usage", dict [("total_tokens", VInt (2 ^ 1024))])])
    = Raise (Exc OverflowError "int too large to convert to float").
Proof. vm_compute. reflexivity. Qed.

(** C4 as amended, on the example of the spec (P6). *)
Lemma cost_augmentation_witness :
  fst (sample_chat (completion_env success_1000) initial_state) =
    Ok (Reply (dict [("id", VStr "chatcmpl-1");
                     ("usage",
                      dict [("total_tokens", VInt 1000);
                            ("cost_usd",
                             VFloat (S754_finite false 8646911284551353 (-58)))])])
              200).
Proof.
  destruct (cost_augmentation sample_repr sample_elapsed_ms
              (completion_env success_1000) initial_state sample_fields
              (VStr "https://api.openai.com/v1") (VStr "")
              success_1000 completion_1000) as (Hcost & _).
  - reflexivity.
  - exact sample_fields_valid.
  - exact initial_config_keys.
  - reflexivity.
  - reflexivity.
  - reflexivity.
  - unfold sample_chat.
    rewrite (Hcost (list_to_map [("total_tokens", VInt 1000)]) (VInt 1000)
                   (float_of_int 1000)); [|reflexivity..].
    vm_compute. reflexivity.
Defined.

(** C5 on the two requests of the spec (P4). *)
Lemma validation_model_first_witness :
  fst (sample_chat (Env (Ok (dict [("model", VStr ""); ("messages", VList [VStr "hi"])]))
                        sample_now (failing connection_refused)) initial_state)
    = Ok (Reply (dict [("code", VStr "invalid_request");
                       ("message", VStr "model is required");
                       ("transient", VBool false)]) 400) /\
  fst (sample_chat (Env (Ok (dict [("model", VStr "m")]))
                        sample_now (failing connection_refused)) initial_state)
    = Ok (Reply (dict [("code", VStr "invalid_request");
                       ("message", VStr "messages is required");
                       ("transient", VBool false)]) 400).
Proof.
  split.
  - destruct (validation_model_first sample_repr sample_elapsed_ms
                (Env (Ok (dict [("model", VStr ""); ("messages", VList [VStr "hi"])]))
                     sample_now (failing connection_refused))
                initial_state
                (list_to_map [("model", VStr ""); ("messages", VList [VStr "hi"])]))
      as (Hmodel & _); [reflexivity|].
    apply Hmodel. reflexivity.
  - destruct (validation_model_first sample_repr sample_elapsed_ms
                (Env (Ok (dict [("model", VStr "m")]))
                     sample_now (failing connection_refused))
                initial_state (list_to_map [("model", VStr "m")]))
      as (_ & Hmsgs & _); [reflexivity|].
    apply Hmsgs; [|reflexivity]. unfold absent_or_empty. vm_compute. discriminate.
Defined.

(** C6 at process start. *)
Lemma health_check_not_initialized_witness :
  fst (sample_health (Env (Raise connection_refused) sample_now (answering rate_limited))
                     initial_state)
    = Ok (Reply (dict [("healthy", VBool false);
                       ("message", VStr "Not initialized");
                       ("latency_ms", VInt 0);
                       ("timestamp", VStr "1500")]) 200) /\
  sent (snd (sample_health (Env (Raise connection_refused) sample_now
                                (answering rate_limited)) initial_state)) = [].
Proof.
  destruct (health_check_not_initialized sample_repr sample_isoformat sample_elapsed_ms
              (Env (Raise connection_refused) sample_now (answering rate_limited))
              initial_state) as (Hreply & Hsent & _); [reflexivity|].
  split; [exact Hreply | exact Hsent].
Defined.

(** C8 at process start, against a provider that answers 401. *)
Lemma completion_without_initialization_witness :
  is_initialized initial_state = false /\
  (exists call : http_call,
     sent (snd (sample_chat (completion_env unauthorized) initial_state)) = [call] /\
     call_headers call = [("Authorization", "Bearer ");
                          ("Content-Type", "application/json")]) /\
  fst (sample_chat (completion_env unauthorized) initial_state)
    = Ok (Reply (dict [("code", VStr "authentication_failed");
                       ("message", VStr "Missing API key");
                       ("transient", VBool false);
                       ("details", dict [("status_code", VInt 401);
                                         ("latency_ms", VInt 1)])]) 401).
Proof.
  destruct (completion_without_initialization sample_repr sample_elapsed_ms
              (completion_env unauthorized) initial_state sample_fields
              (VStr "https://api.openai.com/v1"))
    as (Hinit & Hsent & Hreply).
  - reflexivity.
  - exact sample_fields_valid.
  - exact initial_config_keys.
  - split; [exact Hinit|]. split.
    + eexists. split; [exact Hsent | reflexivity].
    + apply (Hreply unauthorized); [reflexivity | reflexivity |].
      right. exists (list_to_map [("error", dict [("message", VStr "Missing API key")])]).
      split; [reflexivity|]. right. eexists. reflexivity.
Defined.

(** C9 at process start, with a provider that cannot be reached. *)
Lemma initialize_merges_witness :
  fst (sample_initialize (Env (Ok (dict [("api_key", VStr "k")])) sample_now
                              (failing connection_refused)) initial_state)
    = Ok (Reply (dict []) 200) /\
  config (snd (sample_initialize (Env (Ok (dict [("api_key", VStr "k")])) sample_now
                                      (failing connection_refused)) initial_state))
    = list_to_map [("api_key", VStr "k"); ("endpoint", VStr "https://api.openai.com/v1");
                   ("timeout", VInt 30)].
Proof.
  destruct (initialize_merges sample_repr
              (Env (Ok (dict [("api_key", VStr "k")])) sample_now
                   (failing connection_refused))
              initial_state (list_to_map [("api_key", VStr "k")]))
    as (Hreply & Hconfig & _).
  - reflexivity.
  - eexists. reflexivity.
  - split; [exact Hreply|]. unfold sample_initialize.
    rewrite Hconfig. vm_compute. reflexivity.
Defined.

(** ** Further properties of the pure steps *)


(** X2. The cost step only ever writes [usage.cost_usd]: when it succeeds,
    every other member of the body and every other member of [usage] is
    what the provider sent, and a body that is not an object is returned
    as it is. *)
Theorem add_cost_frame (parsed augmented : value) :
  add_cost parsed = Ok augmented ->
  (forall k : string, k <> "usage" -> field augmented k = field parsed k) /\
  (forall usage' : value,
     field augmented "usage" = Some usage' ->
     exists usage : value,
       field parsed "usage" = Some usage /\
       forall k : string, k <> "cost_usd" -> field usage' k = field usage k) /\
  ((forall d : gmap string value, parsed <> VDict d) -> augmented = parsed).
Proof.
  unfold add_cost. destruct parsed as [|b|n|x|s|xs|d]; cbn; try discriminate.
  - (* a string *)
    destruct (is_substring "usage" s); cbn; [discriminate|].
    intros [= <-]. split; [reflexivity|]. split; [discriminate|reflexivity].
  - (* a list *)
    destruct (existsb (is_str "usage") xs); cbn; [discriminate|].
    intros [= <-]. split; [reflexivity|]. split; [discriminate|reflexivity].
  - (* an object *)
    destruct (d !! "usage") as [usage|] eqn:Husage; cbn.
    2:{ intros [= <-]. split; [reflexivity|]. split.
        - cbn. rewrite Husage. discriminate.
        - reflexivity. }
    destruct (py_contains "total_tokens" usage) as [[|]|ex] eqn:Htokens; cbn;
      [| |discriminate].
    2:{ intros [= <-]. split; [reflexivity|]. split.
        - cbn. rewrite Husage. intros usage' [= <-]. exists usage. split; reflexivity.
        - reflexivity. }
    destruct (py_getitem usage "total_tokens") as [tokens|ex]; cbn; [|discriminate].
    destruct (py_mul_float tokens cost_per_token) as [cost|ex]; cbn; [|discriminate].
    destruct (py_setitem usage "cost_usd" cost) as [usage''|ex] eqn:Hset; cbn;
      [|discriminate].
    intros [= <-]. cbn. split; [|split].
    + intros k Hk. apply lookup_insert_ne. congruence.
    + intros usage' Hu. rewrite lookup_insert_eq in Hu. injection Hu as <-.
      exists usage. split; [reflexivity|].
      destruct usage; try discriminate. cbn in Hset. injection Hset as <-.
      intros k Hk. cbn. apply lookup_insert_ne. congruence.
    + intros Hnot. exfalso. apply (Hnot d). reflexivity.
Qed.

(** X3. Applying the cost step to its own result changes nothing: the cost
    is computed from [usage.total_tokens], which the step leaves alone, and
    overwrites the [usage.cost_usd] written before. *)
Theorem add_cost_idempotent (parsed augmented : value) :
  add_cost parsed = Ok augmented -> add_cost augmented = Ok augmented.
Proof.
  intros Hrun.
  destruct (add_cost_frame parsed augmented Hrun) as (_ & _ & Hsame).
  destruct parsed as [|b|n|x|s|xs|d];
    try (specialize (Hsame ltac:(discriminate)); subst augmented; exact Hrun).
  clear Hsame. revert Hrun. unfold add_cost at 1. cbn.
  destruct (d !! "usage") as [usage|] eqn:Husage; cbn.
  2:{ intros [= <-]. unfold add_cost. cbn. rewrite Husage. reflexivity. }
  destruct (py_contains "total_tokens" usage) as [[|]|ex] eqn:Htokens; cbn;
    [| |discriminate].
  2:{ intros [= <-]. unfold add_cost. cbn. rewrite Husage. cbn. rewrite Htokens.
      reflexivity. }
  destruct usage as [| | | | | |u]; try discriminate. cbn in Htokens |- *.
  destruct (u !! "total_tokens") as [tokens|] eqn:Ht; [|discriminate]. cbn.
  destruct (py_mul_float tokens cost_per_token) as [cost|ex] eqn:Hcost; cbn;
    [|discriminate].
  intros [= <-]. unfold add_cost. cbn. rewrite lookup_insert_eq. cbn.
  rewrite lookup_insert_ne by discriminate. rewrite Ht. cbn.
  rewrite Hcost. cbn. rewrite !insert_insert_eq. reflexivity.
Qed.

(** X4. The defaults the metadata document advertises in [config_schema]
    are the values the configuration starts with, and the only field
    marked as required is [api_key], the one [initialize] insists on. *)
Theorem config_schema_matches_initial_config (entry : value) (name : string) :
  entry ∈ config_schema ->
  field METADATA "config_schema" = Some (VList config_schema) /\
  (field entry "name" = Some (VStr name) ->
   (forall default : value,
      field entry "default" = Some default -> initial_config !! name = Some default) /\
   is_Some (initial_config !! name) /\
   (field entry "required" = Some (VBool true) <-> name = "api_key")).
Proof.
  intros Hentry. split; [reflexivity|].
  unfold config_schema in Hentry.
  rewrite !elem_of_cons, elem_of_nil in Hentry.
  destruct Hentry as [-> | [-> | [-> | []]]];
    intros [= <-]; (split; [intros default [= <-]; reflexivity|]);
    (split; [eexists; reflexivity|]); split; first [reflexivity | discriminate].
Qed.

(** ** Further properties of the handlers *)

Section MoreProperties.

Variable py_repr : value -> string.
Variable isoformat : Z -> string.
Variable elapsed_ms : Z -> Z -> Z.

(** Unfold the monad and the primitive effects of a handler. *)
Ltac run :=
  cbv [mbind M_bind mret M_ret try_except lift raise config_getitem config_get
       config_update datetime_now logger requests_get requests_post requests_call
       py_getitem];
  cbn [fst snd config clock_reads sent log negb].

Ltac proj := cbn [fst snd config clock_reads sent log negb status body].

(** Destruct whatever the run of a handler still branches on. *)
Ltac branch :=
  repeat (proj; match goal with
    | |- context [match ?x with _ => _ end] =>
        lazymatch x with
        | context [match _ with _ => _ end] => fail
        | _ => destruct x eqn:?
        end
    end).

(** *** Initialization: what can go wrong *)

(** The run of [initialize] on a body that lacks [api_key]. *)
Lemma initialize_missing_key (e : env) (s : state) (parsed : value) :
  request_json e = Ok parsed ->
  truthy parsed = false \/
  (exists fields, parsed = VDict fields /\ fields !! "api_key" = None) ->
  exists s' : state,
    initialize py_repr e s =
      (Ok (Reply (plugin_error "invalid_request" "api_key is required" false) 400), s') /\
    config s' = config s /\ sent s' = sent s.
Proof.
  intros Hreq Hbody. unfold initialize. run. rewrite Hreq. unfold py_or.
  destruct (truthy parsed) eqn:Htruthy.
  - destruct Hbody as [? | (fields & -> & Hkey)]; [discriminate|].
    cbn [py_contains]. rewrite Hkey. proj. eexists. repeat split.
  - change (dict []) with (VDict ∅). cbn [py_contains]. rewrite lookup_empty. proj.
    eexists. repeat split.
Qed.

(** The run of [initialize] on a body that is something else than an
    object and not empty. *)
Lemma initialize_not_an_object (e : env) (s : state) (parsed : value) :
  request_json e = Ok parsed ->
  truthy parsed = true ->
  (forall fields, parsed <> VDict fields) ->
  exists s' : state,
    initialize py_repr e s =
      (Ok (Reply (plugin_error "internal_error"
                    ("'" ++ type_name parsed ++ "' object has no attribute 'keys'")
                    false) 500), s') /\
    config s' = config s /\ sent s' = sent s.
Proof.
  intros Hreq Htruthy Hnot. unfold initialize. run. rewrite Hreq. unfold py_or.
  rewrite Htruthy.
  destruct parsed as [| | | | | |fields]; try (eexists; repeat split).
  exfalso. apply (Hnot fields). reflexivity.
Qed.

(** The run of [initialize] when Flask cannot give the body as JSON. *)
Lemma initialize_no_json (e : env) (s : state) (ex : exn) :
  request_json e = Raise ex ->
  exists s' : state,
    initialize py_repr e s =
      (Ok (Reply (plugin_error "internal_error" (exc_str ex) false) 500), s') /\
    config s' = config s /\ sent s' = sent s.
Proof.
  intros Hreq. unfold initialize. run. rewrite Hreq. eexists. repeat split.
Qed.

(** The probe [initialize] sends after the update. *)
Lemma initialize_sends_probe (e : env) (s : state) (fields : gmap string value)
    (endpoint api_key : value) :
  request_json e = Ok (VDict fields) ->
  is_Some (fields !! "api_key") ->
  has_keys (fields ∪ config s) endpoint api_key ->
  sent (snd (initialize py_repr e s)) =
    (sent s ++ [probe_call py_repr endpoint api_key])%list.
Proof.
  intros Hreq [key Hkey] [Hep Hk]. unfold initialize. run. rewrite Hreq.
  unfold py_or. rewrite (truthy_nonempty_dict _ _ _ Hkey).
  cbn [py_contains]. rewrite Hkey. proj. rewrite Hep, Hk. unfold probe_call.
  destruct (upstream e _) as [resp|ex]; [|reflexivity].
  destruct (status_code resp =? 200); reflexivity.
Qed.

(** Every body is one of the four kinds above. *)
Lemma request_body_cases (e : env) :
  (exists ex, request_json e = Raise ex) \/
  (exists fields, request_json e = Ok (VDict fields) /\ is_Some (fields !! "api_key")) \/
  (exists parsed, request_json e = Ok parsed /\
     (truthy parsed = false \/
      exists fields, parsed = VDict fields /\ fields !! "api_key" = None)) \/
  (exists parsed, request_json e = Ok parsed /\ truthy parsed = true /\
     forall fields, parsed <> VDict fields).
Proof.
  destruct (request_json e) as [parsed|ex]; [|left; eexists; reflexivity].
  right. destruct (truthy parsed) eqn:Htruthy.
  2:{ right. left. exists parsed. split; [reflexivity|]. left. exact Htruthy. }
  destruct parsed as [| | | | | |fields].
  7:{ destruct (fields !! "api_key") as [key|] eqn:Hkey.
      - left. exists fields. split; [reflexivity|]. exists key. exact Hkey.
      - right. left. eexists. split; [reflexivity|]. right. exists fields.
        split; [reflexivity | exact Hkey]. }
  all: right; right; eexists; split; [reflexivity|]; split; [exact Htruthy|];
    intros fields; discriminate.
Qed.

(** X5. [initialize] never raises: every request is answered, with status
    200, 400 or 500, and with 200 exactly when the body is a JSON object
    that has [api_key]. *)
Theorem initialize_never_raises (e : env) (s : state) :
  exists (r : response) (s' : state),
    initialize py_repr e s = (Ok r, s') /\
    (status r = 200 \/ status r = 400 \/ status r = 500) /\
    (status r = 200 <->
     exists fields : gmap string value,
       request_json e = Ok (VDict fields) /\ is_Some (fields !! "api_key")).
Proof.
  destruct (request_body_cases e)
    as [[ex Hreq] | [(fields & Hreq & Hkey) | [(parsed & Hreq & Hbody)
        | (parsed & Hreq & Htruthy & Hnot)]]].
  - destruct (initialize_no_json e s ex Hreq) as (s' & Hrun & _).
    eexists; exists s'. split; [exact Hrun|]. split; [right; right; reflexivity|].
    split; [discriminate|]. intros (fields & Hreq' & _). congruence.
  - destruct (initialize_accepts py_repr e s fields Hreq Hkey) as [Hr _].
    destruct (initialize py_repr e s) as [r s'] eqn:Hrun. cbn in Hr. subst r.
    eexists; exists s'. split; [reflexivity|]. split; [left; reflexivity|].
    split; [|reflexivity]. intros _. exists fields. split; assumption.
  - destruct (initialize_missing_key e s parsed Hreq Hbody) as (s' & Hrun & _).
    eexists; exists s'. split; [exact Hrun|]. split; [right; left; reflexivity|].
    split; [discriminate|]. intros (fields & Hreq' & [key Hkey]).
    rewrite Hreq in Hreq'. injection Hreq' as ->.
    destruct Hbody as [Hfalsy | (fields' & [= <-] & Hnone)].
    + rewrite (truthy_nonempty_dict _ _ _ Hkey) in Hfalsy. discriminate.
    + congruence.
  - destruct (initialize_not_an_object e s parsed Hreq Htruthy Hnot) as (s' & Hrun & _).
    eexists; exists s'. split; [exact Hrun|]. split; [right; right; reflexivity|].
    split; [discriminate|]. intros (fields & Hreq' & _).
    rewrite Hreq in Hreq'. injection Hreq' as ->. exfalso. apply (Hnot fields). reflexivity.
Qed.

(** X6. A failed [initialize] has no effect: when the reply is not a 200,
    the configuration is what it was and nothing was sent to the provider. *)
Theorem initialize_failure_atomic (e : env) (s : state) (r : response) (s' : state) :
  initialize py_repr e s = (Ok r, s') ->
  status r <> 200 ->
  config s' = config s /\ sent s' = sent s.
Proof.
  intros Hrun Hstatus.
  destruct (request_body_cases e)
    as [[ex Hreq] | [(fields & Hreq & Hkey) | [(parsed & Hreq & Hbody)
        | (parsed & Hreq & Htruthy & Hnot)]]].
  - destruct (initialize_no_json e s ex Hreq) as (s'' & Hrun' & Hframe).
    rewrite Hrun in Hrun'. injection Hrun' as _ <-. exact Hframe.
  - destruct (initialize_accepts py_repr e s fields Hreq Hkey) as [Hr _].
    rewrite Hrun in Hr. cbn in Hr. injection Hr as ->. contradiction.
  - destruct (initialize_missing_key e s parsed Hreq Hbody) as (s'' & Hrun' & Hframe).
    rewrite Hrun in Hrun'. injection Hrun' as _ <-. exact Hframe.
  - destruct (initialize_not_an_object e s parsed Hreq Htruthy Hnot)
      as (s'' & Hrun' & Hframe).
    rewrite Hrun in Hrun'. injection Hrun' as _ <-. exact Hframe.
Qed.

(** X7. A body without [api_key] is refused with 400 [invalid_request],
    "api_key is required". An empty body counts as one: [null], [{}],
    [[]], the empty string, [0] and [false] are all read as [{}]. *)
Theorem initialize_without_api_key (e : env) (s : state) (parsed : value) :
  request_json e = Ok parsed ->
  truthy parsed = false \/
  (exists fields, parsed = VDict fields /\ fields !! "api_key" = None) ->
  fst (initialize py_repr e s) =
    Ok (Reply (dict [("code", VStr "invalid_request");
                     ("message", VStr "api_key is required");
                     ("transient", VBool false)]) 400).
Proof.
  intros Hreq Hbody.
  destruct (initialize_missing_key e s parsed Hreq Hbody) as (s' & Hrun & _).
  rewrite Hrun. reflexivity.
Qed.

(** X8. A body that is valid JSON but neither an object nor empty (a
    list, a text, a number, [true]) is not refused as a bad request: the
    call of [keys()] fails and the reply is 500 [internal_error] with the
    message of the [AttributeError]. *)
Theorem initialize_non_object_body (e : env) (s : state) (parsed : value) :
  request_json e = Ok parsed ->
  truthy parsed = true ->
  (forall fields, parsed <> VDict fields) ->
  fst (initialize py_repr e s) =
    Ok (Reply (dict [("code", VStr "internal_error");
                     ("message",
                      VStr ("'" ++ type_name parsed ++ "' object has no attribute 'keys'"));
                     ("transient", VBool false)]) 500).
Proof.
  intros Hreq Htruthy Hnot.
  destruct (initialize_not_an_object e s parsed Hreq Htruthy Hnot) as (s' & Hrun & _).
  rewrite Hrun. reflexivity.
Qed.

(** *** Initialization: what it sets up *)

(** X9. A successful [initialize] sends exactly one probe, a GET of
    [<endpoint>/models] with a five second timeout, and it is built from
    the configuration after the update: a supplied [endpoint] or [api_key]
    is already the one the probe uses. *)
Theorem initialize_probe_uses_new_configuration (e : env) (s : state)
    (fields : gmap string value) (endpoint api_key : value) :
  request_json e = Ok (VDict fields) ->
  is_Some (fields !! "api_key") ->
  has_keys (fields ∪ config s) endpoint api_key ->
  sent (snd (initialize py_repr e s)) =
    (sent s ++ [Call "GET" (py_str py_repr endpoint ++ "/models")%string
                     [("Authorization", ("Bearer " ++ py_str py_repr api_key)%string)]
                     None (VInt 5)])%list /\
  fields !! "api_key" = Some api_key /\
  (forall v : value, fields !! "endpoint" = Some v -> endpoint = v) /\
  (fields !! "endpoint" = None -> config s !! "endpoint" = Some endpoint).
Proof.
  intros Hreq Hkey [Hep Hk]. split; [|split; [|split]].
  - apply (initialize_sends_probe e s fields endpoint api_key Hreq Hkey).
    split; assumption.
  - destruct Hkey as [key Hkey].
    rewrite (lookup_union_Some_l _ _ _ _ Hkey) in Hk. congruence.
  - intros v Hv. rewrite (lookup_union_Some_l _ _ _ _ Hv) in Hep. congruence.
  - intros Hnone. rewrite lookup_union_r in Hep; assumption.
Qed.

(** X10. Initializing twice merges twice: the second set of fields goes
    over the first, which went over the prior configuration, and repeating
    the same fields changes nothing further. *)
Theorem initialize_twice (e1 e2 : env) (s : state) (fields1 fields2 : gmap string value) :
  request_json e1 = Ok (VDict fields1) ->
  is_Some (fields1 !! "api_key") ->
  request_json e2 = Ok (VDict fields2) ->
  is_Some (fields2 !! "api_key") ->
  let s1 := snd (initialize py_repr e1 s) in
  let s2 := snd (initialize py_repr e2 s1) in
  config s2 = fields2 ∪ (fields1 ∪ config s) /\
  (forall k : string, fields2 !! k = None -> config s2 !! k = config s1 !! k) /\
  (fields1 = fields2 -> config s2 = config s1).
Proof.
  intros Hreq1 Hkey1 Hreq2 Hkey2 s1 s2.
  destruct (initialize_accepts py_repr e1 s fields1 Hreq1 Hkey1) as [_ Hc1].
  destruct (initialize_accepts py_repr e2 s1 fields2 Hreq2 Hkey2) as [_ Hc2].
  fold s1 in Hc1. fold s2 in Hc2. rewrite Hc2, Hc1. split; [reflexivity|]. split.
  - intros k Hk. apply lookup_union_r. exact Hk.
  - intros <-. rewrite (map_union_assoc fields1), (map_union_idemp fields1).
    reflexivity.
Qed.

(** X11. After a successful [initialize] the adapter counts as initialized
    exactly when the supplied [api_key] is truthy: a non-empty text does,
    the empty text, [null], [0] or [false] do not. *)
Theorem initialize_sets_initialized (e : env) (s : state)
    (fields : gmap string value) (api_key : value) :
  request_json e = Ok (VDict fields) ->
  fields !! "api_key" = Some api_key ->
  is_initialized (snd (initialize py_repr e s)) = truthy api_key.
Proof.
  intros Hreq Hkey.
  destruct (initialize_accepts py_repr e s fields Hreq) as [_ Hc].
  { exists api_key. exact Hkey. }
  unfold is_initialized, dict_get. rewrite Hc.
  rewrite (lookup_union_Some_l _ _ _ _ Hkey). reflexivity.
Qed.

(** X12. What [initialize] stores is what the next completion uses: after
    a successful [initialize], a valid completion request is sent to
    [<endpoint>/chat/completions] with the bearer credential, and the
    timeout of the merged configuration, right after the probe. The
    [timeout] (like the other fields) is passed on as supplied, whatever
    its value. *)
Theorem configured_values_reach_completion (e1 e2 : env) (s : state)
    (fields d : gmap string value) (endpoint api_key : value) :
  request_json e1 = Ok (VDict fields) ->
  is_Some (fields !! "api_key") ->
  has_keys (fields ∪ config s) endpoint api_key ->
  request_json e2 = Ok (VDict d) ->
  valid_request d ->
  let s1 := snd (initialize py_repr e1 s) in
  let s2 := snd (chat_completions py_repr elapsed_ms e2 s1) in
  sent s2 =
    (sent s ++
     [probe_call py_repr endpoint api_key;
      Call "POST" (py_str py_repr endpoint ++ "/chat/completions")%string
           [("Authorization", ("Bearer " ++ py_str py_repr api_key)%string);
            ("Content-Type", "application/json")]
           (Some (VDict d))
           (dict_get (fields ∪ config s) "timeout" (VInt 30))])%list /\
  (forall t : value,
     fields !! "timeout" = Some t ->
     dict_get (fields ∪ config s) "timeout" (VInt 30) = t).
Proof.
  intros Hreq1 Hkey Hkeys Hreq2 Hvalid s1 s2. split.
  - destruct (initialize_accepts py_repr e1 s fields Hreq1 Hkey) as [_ Hc1].
    pose proof (initialize_sends_probe e1 s fields endpoint api_key Hreq1 Hkey Hkeys)
      as Hsent1.
    fold s1 in Hc1, Hsent1.
    destruct (chat_forwards py_repr elapsed_ms e2 s1 d endpoint api_key Hreq2 Hvalid)
      as [Hsent2 _].
    { rewrite Hc1. exact Hkeys. }
    fold s2 in Hsent2. rewrite Hsent2, Hsent1, Hc1, <- app_assoc. reflexivity.
  - intros t Ht. unfold dict_get. rewrite (lookup_union_Some_l _ _ _ _ Ht). reflexivity.
Qed.

(** *** The health check: the probe *)

(** X13. An initialized adapter answers a health check with exactly one
    probe, a GET of [<endpoint>/models] with the stored credential and a
    five second timeout; the configuration is not touched, and whatever
    the probe gives, the reported [latency_ms] is the time from the start of
    the handler to the moment the probe returned or failed. *)
Theorem health_check_probe (e : env) (s : state) (endpoint api_key : value) :
  is_initialized s = true ->
  has_keys (config s) endpoint api_key ->
  let out := health_check py_repr isoformat elapsed_ms e s in
  sent (snd out) =
    (sent s ++ [Call "GET" (py_str py_repr endpoint ++ "/models")%string
                     [("Authorization", ("Bearer " ++ py_str py_repr api_key)%string)]
                     None (VInt 5)])%list /\
  config (snd out) = config s /\
  exists r : response,
    fst out = Ok r /\
    field (body r) "latency_ms" =
      Some (VInt (elapsed_ms (now e (clock_reads s)) (now e (S (clock_reads s))))).
Proof.
  unfold is_initialized. intros Hinit [Hep Hkey]. unfold health_check. run.
  rewrite Hinit. proj. rewrite Hep, Hkey.
  destruct (upstream e _) as [resp|ex].
  - destruct (status_code resp =? 200); proj;
      (split; [reflexivity|]); (split; [reflexivity|]); eexists; split; reflexivity.
  - destruct (is_timeout ex); proj;
      (split; [reflexivity|]); (split; [reflexivity|]); eexists; split; reflexivity.
Qed.

(** *** Completions: what can go wrong *)

(** Start of a run of [chat_completions] on a JSON object. *)
Ltac chat_start Hreq :=
  unfold chat_completions; run; rewrite Hreq; cbn [py_get].

(** Run [chat_completions] on a valid request up to the upstream call. *)
Ltac chat_call Hreq Hvalid Hkeys Hup :=
  let Hmodel := fresh in let Hmsgs := fresh in
  let Hep := fresh in let Hkey := fresh in
  destruct Hvalid as [Hmodel Hmsgs]; destruct Hkeys as [Hep Hkey];
  unfold completion_call in Hup;
  chat_start Hreq; rewrite Hmodel; proj; rewrite Hmsgs; proj;
  rewrite Hkey, Hep, Hup.

(** X14. [chat_completions] never raises: every request is answered, with
    status 200, 400, 500 or 504, or with the status the provider gave. *)
Theorem chat_completions_never_raises (e : env) (s : state) :
  exists (r : response) (s' : state),
    chat_completions py_repr elapsed_ms e s = (Ok r, s') /\
    (status r = 200 \/ status r = 400 \/ status r = 500 \/ status r = 504 \/
     exists (c : http_call) (resp : http_response),
       upstream e c = Responds resp /\ status r = status_code resp).
Proof.
  unfold chat_completions. run. branch.
  all: do 2 eexists; (split; [reflexivity|]); proj;
    first [ left; reflexivity
          | right; left; reflexivity
          | right; right; left; reflexivity
          | right; right; right; left; reflexivity
          | right; right; right; right; do 2 eexists; split; [eassumption|reflexivity] ].
Qed.

(** X15. A request body that is valid JSON but not an object ([null], a
    list, a text, a number) is not refused as a bad request: the first
    [get] fails and the reply is 500 [internal_error] with the message of
    the [AttributeError]; nothing is sent to the provider. *)
Theorem chat_completions_non_object_request (e : env) (s : state) (parsed : value) :
  request_json e = Ok parsed ->
  (forall d, parsed <> VDict d) ->
  let out := chat_completions py_repr elapsed_ms e s in
  fst out =
    Ok (Reply (dict [("code", VStr "internal_error");
                     ("message",
                      VStr ("'" ++ type_name parsed ++ "' object has no attribute 'get'"));
                     ("transient", VBool false)]) 500) /\
  sent (snd out) = sent s.
Proof.
  intros Hreq Hnot. unfold chat_completions. run. rewrite Hreq.
  destruct parsed as [| | | | | |d]; cbn [py_get]; proj; try (split; reflexivity).
  exfalso. apply (Hnot d). reflexivity.
Qed.

(** X16. When the call to the provider fails with anything but a timeout
    (a refused connection, an invalid URL), the reply is 500
    [internal_error] with the text of the exception and [transient: false]. *)
Theorem chat_completions_upstream_failure (e : env) (s : state)
    (d : gmap string value) (endpoint api_key : value) (ex : exn) :
  request_json e = Ok (VDict d) ->
  valid_request d ->
  has_keys (config s) endpoint api_key ->
  upstream e (completion_call py_repr (config s) endpoint api_key (VDict d))
    = Fails ex ->
  is_timeout ex = false ->
  fst (chat_completions py_repr elapsed_ms e s) =
    Ok (Reply (dict [("code", VStr "internal_error");
                     ("message", VStr (exc_str ex));
                     ("transient", VBool false)]) 500).
Proof.
  intros Hreq Hvalid Hkeys Hup Hex. chat_call Hreq Hvalid Hkeys Hup.
  proj. rewrite Hex. reflexivity.
Qed.

(** X17. An answer of the provider whose body has to be parsed and is not
    JSON loses its status: for a 200, or for an error served as
    [application/json], a body [resp.json()] cannot read gives 500
    [internal_error] with [transient: false], also when the provider said
    429 or 503. *)
Theorem chat_completions_unparsable_body (e : env) (s : state)
    (d : gmap string value) (endpoint api_key : value)
    (resp : http_response) (ex : exn) :
  request_json e = Ok (VDict d) ->
  valid_request d ->
  has_keys (config s) endpoint api_key ->
  upstream e (completion_call py_repr (config s) endpoint api_key (VDict d))
    = Responds resp ->
  status_code resp = 200 \/ content_type resp = Some "application/json" ->
  json resp = Raise ex ->
  is_timeout ex = false ->
  fst (chat_completions py_repr elapsed_ms e s) =
    Ok (Reply (dict [("code", VStr "internal_error");
                     ("message", VStr (exc_str ex));
                     ("transient", VBool false)]) 500).
Proof.
  intros Hreq Hvalid Hkeys Hup Hparsed Hjson Hex. chat_call Hreq Hvalid Hkeys Hup.
  destruct (status_code resp =? 200) eqn:Hsc.
  - rewrite Hjson. proj. rewrite Hex. reflexivity.
  - destruct Hparsed as [Hsc' | Hct]; [apply Z.eqb_neq in Hsc; contradiction|].
    rewrite (bool_decide_eq_true_2 _ Hct), Hjson. proj. rewrite Hex. reflexivity.
Qed.

(** *** All handlers *)

Lemma step_keeps_key (s s' : state) (k : string) :
  step py_repr isoformat elapsed_ms s s' ->
  is_Some (config s !! k) -> is_Some (config s' !! k).
Proof.
  intros Hstep Hk. destruct Hstep as [e s|e s|e s|s|s|s].
  - apply initialize_keeps_keys. exact Hk.
  - rewrite health_check_config. exact Hk.
  - rewrite chat_completions_config. exact Hk.
  - exact Hk.
  - exact Hk.
  - exact Hk.
Qed.

(** X18. Only a successful [initialize] changes the configuration: a
    request either leaves it as it is, or it is an [initialize] with a JSON
    object that has [api_key], merged over it. In particular [cleanup]
    resets nothing. *)
Theorem only_initialize_changes_config (s s' : state) :
  step py_repr isoformat elapsed_ms s s' ->
  config s' = config s \/
  exists (e : env) (fields : gmap string value),
    s' = snd (initialize py_repr e s) /\
    request_json e = Ok (VDict fields) /\
    is_Some (fields !! "api_key") /\
    config s' = fields ∪ config s.
Proof.
  intros Hstep. destruct Hstep as [e s|e s|e s|s|s|s].
  - destruct (request_body_cases e)
      as [[ex Hreq] | [(fields & Hreq & Hkey) | [(parsed & Hreq & Hbody)
          | (parsed & Hreq & Htruthy & Hnot)]]].
    + destruct (initialize_no_json e s ex Hreq) as (s'' & -> & Hc & _).
      left. exact Hc.
    + right. exists e, fields. split; [reflexivity|]. split; [exact Hreq|].
      split; [exact Hkey|]. apply (initialize_accepts py_repr e s fields Hreq Hkey).
    + destruct (initialize_missing_key e s parsed Hreq Hbody) as (s'' & -> & Hc & _).
      left. exact Hc.
    + destruct (initialize_not_an_object e s parsed Hreq Htruthy Hnot)
        as (s'' & -> & Hc & _).
      left. exact Hc.
  - left. apply health_check_config.
  - left. apply chat_completions_config.
  - left. reflexivity.
  - left. reflexivity.
  - left. reflexivity.
Qed.

(** X19. No handler retries: a request to the plugin makes at most one
    call to the provider, and [get_metadata], [get_models] and [cleanup]
    make none. *)
Theorem one_call_per_request (s s' : state) :
  step py_repr isoformat elapsed_ms s s' ->
  exists calls : list http_call,
    sent s' = (sent s ++ calls)%list /\ (length calls <= 1)%nat.
Proof.
  intros Hstep. destruct Hstep as [e s|e s|e s|s|s|s].
  4-6: exists []; split; [symmetry; apply app_nil_r | cbn; lia].
  - unfold initialize. run. branch.
    all: first [ exists []; split; [symmetry; apply app_nil_r | cbn; lia]
               | eexists [_]; split; [reflexivity | cbn; lia] ].
  - unfold health_check. run. branch.
    all: first [ exists []; split; [symmetry; apply app_nil_r | cbn; lia]
               | eexists [_]; split; [reflexivity | cbn; lia] ].
  - unfold chat_completions. run. branch.
    all: first [ exists []; split; [symmetry; apply app_nil_r | cbn; lia]
               | eexists [_]; split; [reflexivity | cbn; lia] ].
Qed.

(** X20. In every state the process reaches, [config] still has
    [endpoint], [api_key] and [timeout]: a valid completion request is
    always forwarded, never stopped by a missing key, and the timeout of the
    call is the configured one (the fallback of 30 seconds is never used). *)
Theorem reachable_forwards (s : state) (e : env) (d : gmap string value) :
  reachable py_repr isoformat elapsed_ms s ->
  request_json e = Ok (VDict d) ->
  valid_request d ->
  exists endpoint api_key timeout : value,
    has_keys (config s) endpoint api_key /\
    config s !! "timeout" = Some timeout /\
    sent (snd (chat_completions py_repr elapsed_ms e s)) =
      (sent s ++
       [Call "POST" (py_str py_repr endpoint ++ "/chat/completions")%string
             [("Authorization", ("Bearer " ++ py_str py_repr api_key)%string);
              ("Content-Type", "application/json")]
             (Some (VDict d)) timeout])%list.
Proof.
  intros Hs Hreq Hvalid.
  assert (Hkeys : forall k, k ∈ ["endpoint"; "api_key"; "timeout"] ->
                            is_Some (config s !! k)).
  { induction Hs as [|s s' _ IH Hstep].
    - intros k Hk. rewrite !elem_of_cons, elem_of_nil in Hk.
      destruct Hk as [-> | [-> | [-> | []]]]; eexists; reflexivity.
    - intros k Hk. apply (step_keeps_key s s' k Hstep), IH, Hk. }
  destruct (Hkeys "endpoint") as [endpoint Hep]; [set_solver|].
  destruct (Hkeys "api_key") as [api_key Hkey]; [set_solver|].
  destruct (Hkeys "timeout") as [timeout Ht]; [set_solver|].
  exists endpoint, api_key, timeout. split; [split; assumption|]. split; [exact Ht|].
  destruct (chat_forwards py_repr elapsed_ms e s d endpoint api_key Hreq Hvalid)
    as [Hsent _]; [split; assumption|].
  rewrite Hsent. unfold completion_call, dict_get, bearer. rewrite Ht. reflexivity.
Qed.

(** X21. A request whose body Flask cannot give as JSON (no JSON content
    type, malformed JSON) is answered with 500 [internal_error] and the
    text of the HTTP exception, by [initialize] and by [chat_completions]
    alike, not with a 400; nothing is stored and nothing is sent. *)
Theorem unparsable_request_body (e : env) (s : state) (ex : exn) :
  request_json e = Raise ex ->
  exc_class_of ex = HTTPException ->
  let failure := Ok (Reply (dict [("code", VStr "internal_error");
                                  ("message", VStr (exc_str ex));
                                  ("transient", VBool false)]) 500) in
  fst (initialize py_repr e s) = failure /\
  config (snd (initialize py_repr e s)) = config s /\
  sent (snd (initialize py_repr e s)) = sent s /\
  fst (chat_completions py_repr elapsed_ms e s) = failure /\
  sent (snd (chat_completions py_repr elapsed_ms e s)) = sent s.
Proof.
  intros Hreq Hclass failure.
  destruct (initialize_no_json e s ex Hreq) as (s' & Hrun & Hconfig & Hsent).
  rewrite Hrun. split; [reflexivity|]. split; [exact Hconfig|]. split; [exact Hsent|].
  unfold chat_completions. run. rewrite Hreq. proj.
  unfold is_timeout. rewrite Hclass. split; reflexivity.
Qed.

End MoreProperties.

(** ** The further properties on concrete inputs *)

Lemma first_fields_key : is_Some (first_fields !! "api_key").
Proof. eexists. reflexivity. Defined.

Lemma second_fields_key : is_Some (second_fields !! "api_key").
Proof. eexists. reflexivity. Defined.

(** X2 on the completion with 1000 tokens: [id] is left alone. *)
Lemma add_cost_frame_witness :
  exists augmented : value,
    add_cost (VDict completion_1000) = Ok augmented /\
    field augmented "id" = Some (VStr "chatcmpl-1").
Proof.
  destruct (add_cost (VDict completion_1000)) as [augmented|ex] eqn:Hrun;
    [|vm_compute in Hrun; discriminate].
  exists augmented. split; [reflexivity|].
  destruct (add_cost_frame (VDict completion_1000) augmented Hrun) as (Hother & _).
  rewrite Hother by discriminate. reflexivity.
Defined.

(** X3 on the completion with 1000 tokens. *)
Lemma add_cost_idempotent_witness :
  exists augmented : value,
    add_cost (VDict completion_1000) = Ok augmented /\
    add_cost augmented = Ok augmented.
Proof.
  destruct (add_cost (VDict completion_1000)) as [augmented|ex] eqn:Hrun;
    [|vm_compute in Hrun; discriminate].
  exists augmented. split; [reflexivity|].
  apply (add_cost_idempotent (VDict completion_1000) augmented Hrun).
Defined.

(** X4 on the [timeout] entry of the schema. *)
Lemma config_schema_matches_initial_config_witness :
  initial_config !! "timeout" = Some (VInt 30).
Proof.
  destruct (config_schema_matches_initial_config
              (dict [("name", VStr "timeout");
                     ("type", VStr "int");
                     ("required", VBool false);
                     ("description", VStr "Request timeout in seconds");
                     ("default", VInt 30);
                     ("validation", dict [("min", VInt 1); ("max", VInt 300)])])
              "timeout") as (_ & Hentry).
  - unfold config_schema. rewrite !elem_of_cons. right. right. left. reflexivity.
  - destruct Hentry as (Hdefault & _); [reflexivity|].
    apply Hdefault. reflexivity.
Defined.

(** X6 on an empty object: refused, and the configuration is the initial one. *)
Lemma initialize_failure_atomic_witness :
  config (snd (sample_initialize (initialize_env (dict [])) initial_state))
    = initial_config /\
  sent (snd (sample_initialize (initialize_env (dict [])) initial_state)) = [].
Proof.
  apply (initialize_failure_atomic sample_repr (initialize_env (dict [])) initial_state
           (Reply (plugin_error "invalid_request" "api_key is required" false) 400)).
  - vm_compute. reflexivity.
  - cbn. lia.
Defined.

(** X7 on the body [null]. *)
Lemma initialize_without_api_key_witness :
  fst (sample_initialize (initialize_env VNone) initial_state) =
    Ok (Reply (dict [("code", VStr "invalid_request");
                     ("message", VStr "api_key is required");
                     ("transient", VBool false)]) 400).
Proof.
  apply (initialize_without_api_key sample_repr (initialize_env VNone) initial_state VNone).
  - reflexivity.
  - left. reflexivity.
Defined.

(** X8 on the body [["api_key"]]. *)
Lemma initialize_non_object_body_witness :
  fst (sample_initialize (initialize_env (VList [VStr "api_key"])) initial_state) =
    Ok (Reply (dict [("code", VStr "internal_error");
                     ("message", VStr "'list' object has no attribute 'keys'");
                     ("transient", VBool false)]) 500).
Proof.
  apply (initialize_non_object_body sample_repr (initialize_env (VList [VStr "api_key"]))
           initial_state (VList [VStr "api_key"])).
  - reflexivity.
  - reflexivity.
  - intros fields. discriminate.
Defined.

(** X9 at process start: the probe already carries the new key. *)
Lemma initialize_probe_uses_new_configuration_witness :
  sent initialized_state =
    [Call "GET" "https://api.openai.com/v1/models" [("Authorization", "Bearer sk-1")]
          None (VInt 5)].
Proof.
  destruct (initialize_probe_uses_new_configuration sample_repr
              (initialize_env (VDict first_fields)) initial_state first_fields
              (VStr "https://api.openai.com/v1") (VStr "sk-1")) as (Hsent & _).
  - reflexivity.
  - exact first_fields_key.
  - split; reflexivity.
  - exact Hsent.
Defined.

(** X10: the second initialization on top of the first. *)
Lemma initialize_twice_witness :
  config (snd (sample_initialize (initialize_env (VDict second_fields)) initialized_state))
    = list_to_map [("api_key", VStr "sk-2");
                   ("endpoint", VStr "http://localhost:8000/v1");
                   ("timeout", VInt 600)].
Proof.
  destruct (initialize_twice sample_repr
              (initialize_env (VDict first_fields)) (initialize_env (VDict second_fields))
              initial_state first_fields second_fields) as (Hconfig & _).
  - reflexivity.
  - exact first_fields_key.
  - reflexivity.
  - exact second_fields_key.
  - unfold initialized_state, sample_initialize. rewrite Hconfig.
    vm_compute. reflexivity.
Defined.

(** X11 with the key [sk-1]. *)
Lemma initialize_sets_initialized_witness : is_initialized initialized_state = true.
Proof.
  apply (initialize_sets_initialized sample_repr (initialize_env (VDict first_fields))
           initial_state first_fields (VStr "sk-1")).
  - reflexivity.
  - reflexivity.
Defined.

(** X12: the timeout of ten minutes reaches the completion call. *)
Lemma configured_values_reach_completion_witness :
  sent (snd (sample_chat (completion_env rate_limited) initialized_state)) =
    [Call "GET" "https://api.openai.com/v1/models" [("Authorization", "Bearer sk-1")]
          None (VInt 5);
     Call "POST" "https://api.openai.com/v1/chat/completions"
          [("Authorization", "Bearer sk-1"); ("Content-Type", "application/json")]
          (Some (VDict sample_fields)) (VInt 600)].
Proof.
  destruct (configured_values_reach_completion sample_repr sample_elapsed_ms
              (initialize_env (VDict first_fields)) (completion_env rate_limited)
              initial_state first_fields sample_fields
              (VStr "https://api.openai.com/v1") (VStr "sk-1")) as (Hsent & _).
  - reflexivity.
  - exact first_fields_key.
  - split; reflexivity.
  - reflexivity.
  - exact sample_fields_valid.
  - exact Hsent.
Defined.

(** X13 on the initialized adapter, with the provider down. *)
Lemma health_check_probe_witness :
  sent (snd (sample_health (initialize_env VNone) initialized_state)) =
    [Call "GET" "https://api.openai.com/v1/models" [("Authorization", "Bearer sk-1")]
          None (VInt 5);
     Call "GET" "https://api.openai.com/v1/models" [("Authorization", "Bearer sk-1")]
          None (VInt 5)].
Proof.
  destruct (health_check_probe sample_repr sample_isoformat sample_elapsed_ms
              (initialize_env VNone) initialized_state
              (VStr "https://api.openai.com/v1") (VStr "sk-1")) as (Hsent & _).
  - reflexivity.
  - split; reflexivity.
  - exact Hsent.
Defined.

(** X15 on the body [null]. *)
Lemma chat_completions_non_object_request_witness :
  fst (sample_chat (initialize_env VNone) initial_state) =
    Ok (Reply (dict [("code", VStr "internal_error");
                     ("message", VStr "'NoneType' object has no attribute 'get'");
                     ("transient", VBool false)]) 500).
Proof.
  apply (chat_completions_non_object_request sample_repr sample_elapsed_ms
           (initialize_env VNone) initial_state VNone).
  - reflexivity.
  - intros d. discriminate.
Defined.

(** X16 with a refused connection. *)
Lemma chat_completions_upstream_failure_witness :
  fst (sample_chat (initialize_env (VDict sample_fields)) initial_state) =
    Ok (Reply (dict [("code", VStr "internal_error");
                     ("message", VStr "Connection refused");
                     ("transient", VBool false)]) 500).
Proof.
  apply (chat_completions_upstream_failure sample_repr sample_elapsed_ms
           (initialize_env (VDict sample_fields)) initial_state sample_fields
           (VStr "https://api.openai.com/v1") (VStr "") connection_refused).
  - reflexivity.
  - exact sample_fields_valid.
  - exact initial_config_keys.
  - reflexivity.
  - reflexivity.
Defined.

(** X17 on the 503 page of a proxy. *)
Lemma chat_completions_unparsable_body_witness :
  fst (sample_chat (completion_env bad_gateway_page) initial_state) =
    Ok (Reply (dict [("code", VStr "internal_error");
                     ("message", VStr "Expecting value: line 1 column 1 (char 0)");
                     ("transient", VBool false)]) 500).
Proof.
  apply (chat_completions_unparsable_body sample_repr sample_elapsed_ms
           (completion_env bad_gateway_page) initial_state sample_fields
           (VStr "https://api.openai.com/v1") (VStr "") bad_gateway_page
           (Exc ValueError "Expecting value: line 1 column 1 (char 0)")).
  - reflexivity.
  - exact sample_fields_valid.
  - exact initial_config_keys.
  - reflexivity.
  - right. reflexivity.
  - reflexivity.
  - reflexivity.
Defined.

(** X18 on [cleanup] after an initialization: the key is still there. *)
Lemma only_initialize_changes_config_witness :
  config (snd (cleanup initialized_state)) !! "api_key" = Some (VStr "sk-1").
Proof.
  destruct (only_initialize_changes_config sample_repr sample_isoformat sample_elapsed_ms
              initialized_state (snd (cleanup initialized_state)))
    as [Hsame | (e & fields & _ & _ & _ & Hmerged)].
  - apply step_cleanup.
  - rewrite Hsame. reflexivity.
  - reflexivity.
Defined.

(** X19 on a completion at process start. *)
Lemma one_call_per_request_witness :
  exists calls : list http_call,
    sent (snd (sample_chat (completion_env rate_limited) initial_state)) = calls /\
    (length calls <= 1)%nat.
Proof.
  destruct (one_call_per_request sample_repr sample_isoformat sample_elapsed_ms
              initial_state (snd (sample_chat (completion_env rate_limited) initial_state)))
    as (calls & Hsent & Hlength).
  - apply step_chat_completions.
  - exists calls. split; [exact Hsent | exact Hlength].
Defined.

(** X20 on the adapter after one initialization. *)
Lemma reachable_forwards_witness :
  exists call : http_call,
    sent (snd (sample_chat (completion_env rate_limited) initialized_state)) =
      (sent initialized_state ++ [call])%list /\
    call_json call = Some (VDict sample_fields).
Proof.
  destruct (reachable_forwards sample_repr sample_isoformat sample_elapsed_ms
              initialized_state (completion_env rate_limited) sample_fields)
    as (endpoint & api_key & timeout & _ & _ & Hsent).
  - apply (reachable_step _ _ _ initial_state).
    + apply reachable_start.
    + apply (step_initialize _ _ _ (initialize_env (VDict first_fields))).
  - reflexivity.
  - exact sample_fields_valid.
  - eexists. split; [exact Hsent | reflexivity].
Defined.

(** X21 on a request without a JSON content type. *)
Lemma unparsable_request_body_witness :
  fst (sample_chat (Env (Raise (Exc HTTPException "415 Unsupported Media Type"))
                        sample_now (failing connection_refused)) initial_state) =
    Ok (Reply (dict [("code", VStr "internal_error");
                     ("message", VStr "415 Unsupported Media Type");
                     ("transient", VBool false)]) 500).
Proof.
  destruct (unparsable_request_body sample_repr sample_elapsed_ms
              (Env (Raise (Exc HTTPException "415 Unsupported Media Type"))
                   sample_now (failing connection_refused))
              initial_state (Exc HTTPException "415 Unsupported Media Type"))
    as (_ & _ & _ & Hchat & _).
  - reflexivity.
  - reflexivity.
  - exact Hchat.
Defined.
